(** * Monitoring wrapper for generative-text API calls: model and properties

    A shallow embedding of [mona_openai/mona_openai.py] and
    [mona_openai/util/async_util.py].  Python dictionaries are finite maps
    with string keys, the effects of a call (reading the wall clock, drawing
    a random number, calling the wrapped target, exporting a record) are
    threaded through an explicit world, and exceptions are an error result. *)

From Stdlib Require Import QArith.
From stdpp Require Import gmap strings list fin_maps.

Set Warnings "-register-all".

(** ** Python values *)

(** Floats ([time.time()] readings, latencies, the sampling ratio and the
    random draws) are carried as rationals: none of the properties below
    depends on rounding.  [VIter] is an iterator object, the source sequence
    of partial chunks returned by the target when [stream] is set. *)
Inductive value : Type :=
  | VNone
  | VBool (b : bool)
  | VInt (z : Z)
  | VFloat (q : Q)
  | VStr (s : string)
  | VList (l : list value)
  | VDict (d : gmap string value)
  | VIter (chunks : list value).

(** Python truthiness, as used by [if response:], [if additional_data:] and
    [if not is_stream:]. *)
Definition truthy (v : value) : bool :=
  match v with
  | VNone => false
  | VBool b => b
  | VInt z => negb (Z.eqb z 0)
  | VFloat q => negb (Qeq_bool q 0)
  | VStr s => negb (String.eqb s "")
  | VList l => match l with [] => false | _ => true end
  | VDict d => negb (bool_decide (d = ∅))
  | VIter _ => true
  end.

(** ** Exceptions *)

Record exn : Type := Exn { exn_kind : string; exn_msg : string }.

(** [except Exception] does not catch the kinds that derive from
    [BaseException] only. *)
Definition is_Exception (e : exn) : bool :=
  negb (bool_decide (exn_kind e ∈
    ["KeyboardInterrupt"; "SystemExit"; "GeneratorExit"; "CancelledError"])).

(** [except RuntimeError] catches [RuntimeError] and its built-in
    subclasses. *)
Definition is_RuntimeError (e : exn) : bool :=
  bool_decide (exn_kind e ∈
    ["RuntimeError"; "NotImplementedError"; "RecursionError"]).

Inductive result (A : Type) : Type :=
  | Ok (a : A)
  | Raise (e : exn).
Arguments Ok {A} a.
Arguments Raise {A} e.

(** [d["id"]]: subscripting a value with a string key. *)
Definition subscript (v : value) (k : string) : result value :=
  match v with
  | VDict d =>
      match d !! k with
      | Some x => Ok x
      | None => Raise (Exn "KeyError" k)
      end
  | _ => Raise (Exn "TypeError" "object is not subscriptable with a string")
  end.

(** [d.get(k, default)] *)
Definition dict_get (d : gmap string value) (k : string) (default : value)
  : value :=
  match d !! k with
  | Some x => x
  | None => default
  end.

(** ** The world a call runs in *)

(** One record handed to the logger: [log(message, context_id,
    export_timestamp)]. *)
Record emission : Type := Emission {
  em_message : value;
  em_context_id : value;
  em_export_timestamp : value
}.

(** State of the thread's event loop, as [asyncio] sees it: no loop was
    ever installed, the current loop was reset to [None] (what
    [asyncio.run] leaves behind), a loop is installed but idle, or a loop
    is running. *)
Inductive loop_state : Type := NoLoop | LoopUnset | LoopIdle | LoopRunning.

#[global] Instance loop_state_eq_dec : EqDecision loop_state.
Proof. solve_decision. Defined.

Inductive sched_event : Type :=
  | FreshLoopRun      (* a new loop was started, ran the task, was closed *)
  | CurrentLoopRun    (* the installed loop was driven directly *)
  | NestApplied       (* nest_asyncio.apply() *)
  | NestedRun.        (* a nested run on the patched loop *)

Record world : Type := World {
  clock : nat -> Q;            (* successive readings of time.time() *)
  ticks : nat;                 (* readings taken so far *)
  rand : nat -> Q;             (* successive results of random() *)
  draws : nat;                 (* draws taken so far *)
  exported : list emission;    (* records received by the logger, in order *)
  forwarded : list (list value * gmap string value);
                               (* arguments received by the wrapped target *)
  loop : loop_state;
  nested : bool;               (* nest_asyncio patch installed *)
  sched : list sched_event     (* what the scheduler was asked to do *)
}.

(** State and exception monad: a computation either returns or raises, and
    leaves a state behind in both cases. *)
Definition ST (S A : Type) : Type := S -> result A * S.

#[global] Instance ST_ret {S} : MRet (ST S) := fun A a s => (Ok a, s).
#[global] Instance ST_bind {S} : MBind (ST S) := fun A B f m s =>
  match m s with
  | (Ok a, s') => f a s'
  | (Raise e, s') => (Raise e, s')
  end.

Abbreviation M := (ST world).

(** [try: body / except <caught kinds> as e: handler e] *)
Definition try_except {S A : Type} (body : ST S A) (caught : exn -> bool)
    (handler : exn -> ST S A) : ST S A := fun s =>
  match body s with
  | (Ok a, s') => (Ok a, s')
  | (Raise e, s') => if caught e then handler e s' else (Raise e, s')
  end.

Definition raise {S A : Type} (e : exn) : ST S A := fun s => (Raise e, s).

(** World updates: a clock reading taken, a random number drawn, a record
    handed to the logger, a call received by the target, the scheduler
    changed. *)
Definition tick (w : world) : world :=
  World (clock w) (S (ticks w)) (rand w) (draws w) (exported w)
        (forwarded w) (loop w) (nested w) (sched w).

Definition drew (w : world) : world :=
  World (clock w) (ticks w) (rand w) (S (draws w)) (exported w)
        (forwarded w) (loop w) (nested w) (sched w).

Definition emitted (e : emission) (w : world) : world :=
  World (clock w) (ticks w) (rand w) (draws w) (exported w ++ [e])
        (forwarded w) (loop w) (nested w) (sched w).

Definition called (args : list value) (kwargs : gmap string value)
    (w : world) : world :=
  World (clock w) (ticks w) (rand w) (draws w) (exported w)
        (forwarded w ++ [(args, kwargs)]) (loop w) (nested w) (sched w).

Definition with_sched (l : loop_state) (n : bool) (ev : list sched_event)
    (w : world) : world :=
  World (clock w) (ticks w) (rand w) (draws w) (exported w)
        (forwarded w) l n ev.

(** [time.time()] *)
Definition time_time : M Q := fun w => (Ok (clock w (ticks w)), tick w).

(** [random()] *)
Definition random : M Q := fun w => (Ok (rand w (draws w)), drew w).

Definition emit (e : emission) : M unit := fun w => (Ok tt, emitted e w).

Definition record_call (args : list value) (kwargs : gmap string value)
  : M unit := fun w => (Ok tt, called args kwargs w).

Definition set_loop (l : loop_state) (n : bool) (ev : list sched_event)
  : M unit := fun w => (Ok tt, with_sched l n (sched w ++ ev) w).

Definition get_world : M world := fun w => (Ok w, w).

(** ** Callables *)

(** A Python callable: its [__name__], whether it was declared with
    [async def], and what a call does. *)
Record callable : Type := Callable {
  fn_name : string;
  iscoroutinefunction : bool;
  fn_call : list value -> gmap string value -> M value
}.

(** The wrapped [create]/[acreate] of the target class.  Its behaviour is
    any function of the arguments it receives; the call is recorded. *)
Definition target_function (name : string) (is_coroutine : bool)
    (behaviour : list value -> gmap string value -> result value)
  : callable :=
  Callable name is_coroutine (fun args kwargs =>
    record_call args kwargs ;;
    match behaviour args kwargs with
    | Ok v => mret v
    | Raise e => raise e
    end).

(** [logger.log] / [logger.alog]: the external sink.  It keeps what it is
    given. *)
Definition logger_function (name : string) (is_coroutine : bool) : callable :=
  Callable name is_coroutine (fun args _ =>
    match args with
    | [message; context_id; export_timestamp] =>
        emit (Emission message context_id export_timestamp) ;; mret VNone
    | _ => raise (Exn "TypeError" "log() takes three arguments")
    end).

Definition EMPTY_DICT : gmap string value := ∅.

(** ** util/async_util.py *)

(** [call_non_blocking_sync_or_async]: a coroutine function is awaited, a
    plain function is called; either way the caller gets the result. *)
Definition call_non_blocking_sync_or_async (function : callable)
    (func_args : list value) (func_kwargs : gmap string value) : M value :=
  if iscoroutinefunction function
  then fn_call function func_args func_kwargs
  else fn_call function func_args func_kwargs.

(** *** The event loop, as [asyncio] and [nest_asyncio] document it

    A coroutine object can be driven once: a second attempt to await it
    raises [RuntimeError].  The scheduler operations below act on the
    coroutine object handed to [run_in_an_event_loop] and on the world. *)
Inductive coroutine_state : Type := Created | Awaited.

Abbreviation Sched := (ST (coroutine_state * world)).

Definition lift {A : Type} (m : M A) : Sched A := fun s =>
  let '(r, w') := m (snd s) in (r, (fst s, w')).

(** Run the coroutine object to completion on the loop that drives it. *)
Definition drive {A : Type} (coroutine : M A) : Sched A := fun s =>
  match fst s with
  | Awaited =>
      (Raise (Exn "RuntimeError" "cannot reuse already awaited coroutine"), s)
  | Created =>
      let '(r, w') := coroutine (snd s) in (r, (Awaited, w'))
  end.

(** [asyncio.run(coroutine)].  Unpatched, it refuses to run while a loop is
    running in the thread (the coroutine is then not started); otherwise it
    starts a new loop, runs the coroutine on it, closes it and resets the
    current loop.  Patched by [nest_asyncio], it runs the coroutine on the
    current loop (created if missing), nested when that loop is running. *)
Definition asyncio_run {A : Type} (coroutine : M A) : Sched A :=
  w ← lift get_world;
  if nested w then
    lift (set_loop LoopRunning true [NestedRun]) ;;
    try_except
      (a ← drive coroutine;
       lift (set_loop (match loop w with LoopRunning => LoopRunning
                       | _ => LoopIdle end) true []) ;;
       mret a)
      (fun _ => true)
      (fun e =>
       lift (set_loop (match loop w with LoopRunning => LoopRunning
                       | _ => LoopIdle end) true []) ;;
       raise e)
  else
    match loop w with
    | LoopRunning =>
        raise (Exn "RuntimeError"
                   "asyncio.run() cannot be called from a running event loop")
    | _ =>
        lift (set_loop LoopRunning false [FreshLoopRun]) ;;
        try_except
          (a ← drive coroutine; lift (set_loop LoopUnset false []) ;; mret a)
          (fun _ => true)
          (fun e => lift (set_loop LoopUnset false []) ;; raise e)
    end.

(** [asyncio.get_event_loop().run_until_complete(coroutine)].  Looking up
    the loop fails when the current loop was reset; driving it fails,
    before the coroutine is started, when it is already running and not
    patched. *)
Definition get_event_loop_run_until_complete {A : Type} (coroutine : M A)
  : Sched A :=
  w ← lift get_world;
  match loop w, nested w with
  | LoopUnset, false =>
      raise (Exn "RuntimeError" "There is no current event loop in thread")
  | LoopRunning, false =>
      raise (Exn "RuntimeError" "This event loop is already running")
  | l, n =>
      lift (set_loop LoopRunning n
              [if n then NestedRun else CurrentLoopRun]) ;;
      let after :=
        match l with LoopRunning => LoopRunning | _ => LoopIdle end in
      try_except
        (a ← drive coroutine; lift (set_loop after n []) ;; mret a)
        (fun _ => true)
        (fun e => lift (set_loop after n []) ;; raise e)
  end.

(** [nest_asyncio.apply()] *)
Definition nest_asyncio_apply : Sched unit :=
  w ← lift get_world; lift (set_loop (loop w) true [NestApplied]).

(** [run_in_an_event_loop(coroutine)] *)
Definition run_in_an_event_loop {A : Type} (coroutine : M A) : M A := fun w =>
  let '(r, (_, w')) :=
    try_except (asyncio_run coroutine) is_RuntimeError (fun _ =>
      try_except (get_event_loop_run_until_complete coroutine)
        is_RuntimeError (fun _ =>
          (* This happens in environments that already have an event loop
             that is "run forever": allow a nested event loop. *)
          nest_asyncio_apply ;; asyncio_run coroutine))
      (Created, w)
  in (r, w').

(** ** util/func_util.py and util/stream_util.py *)

Definition Qlt_bool (x y : Q) : bool := negb (Qle_bool y x).

(** Modelled from the spec: [add_conditional_sampling] (util/func_util.py)
    is not among the sources.  The gate draws one uniform random value in
    [0,1) and runs the emission action iff the draw is less than the ratio;
    a skipped emission returns [None]. *)
Definition add_conditional_sampling {A : Type} (inner_func : A -> M value)
    (sampling_ratio : Q) : A -> M value := fun a =>
  draw ← random;
  if Qlt_bool draw sampling_ratio then inner_func a else mret VNone.

(** [event["choices"]] of a chunk, and [choice["index"]] of a choice. *)
Definition chunk_choices (chunk : value) : list value :=
  match chunk with
  | VDict d => match d !! "choices" with Some (VList cs) => cs | _ => [] end
  | _ => []
  end.

Definition choice_index (choice : value) : option Z :=
  match choice with
  | VDict d => match d !! "index" with Some (VInt i) => Some i | _ => None end
  | _ => None
  end.

(** Modelled from the spec: [ResponseGatheringIterator] (util/stream_util.py)
    is not among the sources.  It wraps the source sequence of chunks and
    passes every chunk through unmodified; on the first chunk it records the
    current time; for every chunk it appends each choice's delta text to the
    accumulator of that choice index; when the source is exhausted it
    synthesizes a final response (the choices rebuilt from the accumulated
    texts) and invokes the completion callback, once, with that response and
    the recorded stream start time.  The spec does not say which
    response-level fields ([id], [model], ...) the synthesized response
    carries besides its choices: [response_fields] computes them from the
    chunks passed through. *)
Record ResponseGatheringIterator : Type := {
  original_iterator : value;
  delta_choice_text_getter : value -> string;
  final_choice_getter : Z -> string -> value;
  callback : gmap string value -> option Q -> M value;
  response_fields : list value -> gmap string value;
  (* StreamState *)
  initial_event_time : option Q;
  choices_text : gmap Z string;
  passed_through : list value;
  completed : bool
}.

Definition add_choice (getter : value -> string) (acc : gmap Z string)
    (choice : value) : gmap Z string :=
  match choice_index choice with
  | Some i => <[i := default "" (acc !! i) +:+ getter choice]> acc
  | None => acc
  end.

Definition add_chunk (getter : value -> string) (acc : gmap Z string)
    (chunk : value) : gmap Z string :=
  foldl (add_choice getter) acc (chunk_choices chunk).

Definition create_singular_response (it : ResponseGatheringIterator)
  : gmap string value :=
  <["choices" :=
      VList ((fun it_ => final_choice_getter it (fst it_) (snd it_))
               <$> map_to_list (choices_text it))]>
    (response_fields it (passed_through it)).

Definition with_state (it : ResponseGatheringIterator) (src : value)
    (t : option Q) (acc : gmap Z string) (seen : list value) (fin : bool)
  : ResponseGatheringIterator :=
  {| original_iterator := src;
     delta_choice_text_getter := delta_choice_text_getter it;
     final_choice_getter := final_choice_getter it;
     callback := callback it;
     response_fields := response_fields it;
     initial_event_time := t;
     choices_text := acc;
     passed_through := seen;
     completed := fin |}.

(** [__next__] / [__anext__]: [None] stands for [StopIteration]. *)
Definition rgi_next (it : ResponseGatheringIterator)
  : M (option value * ResponseGatheringIterator) :=
  match original_iterator it with
  | VIter (chunk :: rest) =>
      t ← match initial_event_time it with
          | None => now ← time_time; mret (Some now)
          | Some t => mret (Some t)
          end;
      mret (Some chunk,
            with_state it (VIter rest) t
              (add_chunk (delta_choice_text_getter it) (choices_text it) chunk)
              (passed_through it ++ [chunk]) (completed it))
  | VIter [] =>
      if completed it then mret (None, it)
      else
        callback it (create_singular_response it) (initial_event_time it) ;;
        mret (None,
              with_state it (VIter []) (initial_event_time it)
                (choices_text it) (passed_through it) true)
  | _ => raise (Exn "TypeError" "object is not an iterator")
  end.

(** The caller's [for chunk in iterator:] loop, collecting what it is
    handed.  [remaining] bounds the number of [__next__] calls the loop can
    make. *)
Fixpoint consume (fuel : nat) (it : ResponseGatheringIterator)
  : M (list value * ResponseGatheringIterator) :=
  match fuel with
  | O => mret ([], it)
  | S fuel' =>
      r ← rgi_next it;
      match fst r with
      | None => mret ([], snd r)
      | Some chunk =>
          rest ← consume fuel' (snd r);
          mret (chunk :: fst rest, snd rest)
      end
  end.

Definition remaining (it : ResponseGatheringIterator) : nat :=
  match original_iterator it with
  | VIter chunks => length chunks
  | _ => 0
  end.

Definition exhaust (it : ResponseGatheringIterator)
  : M (list value * ResponseGatheringIterator) :=
  consume (S (remaining it)) it.

(** ** mona_openai.py *)

Definition MONA_ARGS_PREFIX : string := "MONA_".
Definition CONTEXT_ID_ARG_NAME : string := MONA_ARGS_PREFIX +:+ "context_id".
Definition EXPORT_TIMESTAMP_ARG_NAME : string :=
  MONA_ARGS_PREFIX +:+ "export_timestamp".
Definition ADDITIONAL_DATA_ARG_NAME : string :=
  MONA_ARGS_PREFIX +:+ "additional_data".

(** [{x: kwargs[x] for x in kwargs if not x.startswith(MONA_ARGS_PREFIX)}] *)
Definition without_mona_args (kwargs : gmap string value)
  : gmap string value :=
  filter (fun kv => String.prefix MONA_ARGS_PREFIX (fst kv) = false) kwargs.

Definition of_result {A : Type} (r : result A) : M A :=
  match r with
  | Ok a => mret a
  | Raise e => raise e
  end.

(** The module-level [_get_logging_message]. *)
Definition _get_logging_message (api_name : string)
    (request_input : gmap string value) (start_time : Q)
    (is_exception is_async : bool) (stream_start_time : option Q)
    (response : value)
    (analysis_getter : gmap string value -> value -> value)
    (message_cleaner : gmap string value -> gmap string value)
    (additional_data : value) : M (gmap string value) :=
  now ← time_time;
  let message : gmap string value :=
    <["is_async" := VBool is_async]>
    (<["api_name" := VStr api_name]>
    (<["is_exception" := VBool is_exception]>
    (<["stream_start_latency" :=
         match stream_start_time with
         | Some t => VFloat (t - start_time)
         | None => VNone
         end]>
    (<["latency" := VFloat (now - start_time)]>
    (<["input" := VDict request_input]> ∅))))) in
  let message :=
    if truthy additional_data
    then <["additional_data" := additional_data]> message
    else message in
  let message :=
    if truthy response
    then <["analysis" := analysis_getter request_input response]>
           (<["response" := response]> message)
    else message in
  mret (message_cleaner message).

(** The endpoint wrapping the monitored class derives from
    ([get_endpoint_wrapping(...).wrap_class(openai_class)]): the external
    collaborators of the interception layer. *)
Record endpoint_wrapping : Type := {
  _get_full_analysis : gmap string value -> value -> value;
  _get_clean_message : gmap string value -> gmap string value;
  _get_all_prompt_texts : gmap string value -> list string;
  _get_all_response_texts : gmap string value -> list string;
  _get_stream_delta_text_from_choice : value -> string;
  _get_final_choice : Z -> string -> value
}.

(** What [_inner_create] hands back: the response of a plain call, or the
    gathering iterator of a streamed one. *)
Inductive create_result : Type :=
  | Returned (response : value)
  | Streaming (iterator : ResponseGatheringIterator).

(** What [monitor_with_logger] closes over: [openai_class.__name__], the
    two entry points of the wrapped class, the endpoint wrapping, [specs]
    and the ratio [validate_and_get_sampling_ratio] extracts from it, the
    helpers of util/openai_util.py and util/tokens_util.py, and the
    response-level fields of a synthesized stream response. *)
Record monitored_class : Type := {
  openai_class_name : string;
  openai_create : list value -> gmap string value -> result value;
  openai_acreate : list value -> gmap string value -> result value;
  base_class : endpoint_wrapping;
  specs : gmap string value;
  sampling_ratio : Q;
  get_model_param : gmap string value -> value;
  get_usage : value -> list string -> list string -> value;
  stream_response_fields : list value -> gmap string value
}.

Module MonitoredOpenAI.
Section monitor_with_logger.

Variable cls : monitored_class.

Definition _get_logging_message (kwargs_param : gmap string value)
    (start_time : Q) (is_exception is_async : bool)
    (stream_start_time : option Q) (response : value)
  : M (gmap string value) :=
  (* deepcopy of an immutable value is the value *)
  let request_input := without_mona_args kwargs_param in
  let additional_data :=
    dict_get kwargs_param ADDITIONAL_DATA_ARG_NAME (VDict EMPTY_DICT) in
  _get_logging_message (openai_class_name cls) request_input start_time
    is_exception is_async stream_start_time response
    (_get_full_analysis (base_class cls))
    (_get_clean_message (base_class cls))
    additional_data.

(** The closures of [_inner_create] take the variables they capture
    ([kwargs], [start_time], [is_async] and the current contents of the
    [nonlocal] cells [stream_start_time] and [response]) as arguments. *)
Definition _inner_log_message (export_function : callable)
    (kwargs : gmap string value) (start_time : Q) (is_async : bool)
    (stream_start_time : option Q) (response : value)
    (is_exception : bool) : M value :=
  message ← _get_logging_message kwargs start_time is_exception is_async
              stream_start_time response;
  default_context_id ←
    (if truthy response then of_result (subscript response "id")
     else mret VNone);
  call_non_blocking_sync_or_async export_function
    [VDict message;
     dict_get kwargs CONTEXT_ID_ARG_NAME default_context_id;
     dict_get kwargs EXPORT_TIMESTAMP_ARG_NAME (VFloat start_time)]
    EMPTY_DICT.

Definition log_message (export_function : callable)
    (kwargs : gmap string value) (start_time : Q) (is_async : bool)
    (stream_start_time : option Q) (response : value)
  : bool -> M value :=
  add_conditional_sampling
    (_inner_log_message export_function kwargs start_time is_async
       stream_start_time response)
    (sampling_ratio cls).

Definition inner_super_function (super_function : callable)
    (args : list value) (kwargs : gmap string value) : M value :=
  call_non_blocking_sync_or_async super_function args
    (without_mona_args kwargs).

Definition inner_handle_exception (export_function : callable)
    (kwargs : gmap string value) (start_time : Q) (is_async : bool)
    (stream_start_time : option Q) (response : value) : M value :=
  if negb (truthy (dict_get (specs cls) "avoid_monitoring_exceptions"
                     (VBool false)))
  then log_message export_function kwargs start_time is_async
         stream_start_time response true
  else mret VNone.

Definition _stream_done_callback (export_function : callable)
    (kwargs : gmap string value) (start_time : Q) (is_async : bool)
    (final_response : gmap string value)
    (actual_stream_start_time : option Q) : M value :=
  let response :=
    VDict (<["usage" :=
               get_usage cls (get_model_param cls kwargs)
                 (_get_all_prompt_texts (base_class cls) kwargs)
                 (_get_all_response_texts (base_class cls) final_response)]>
             final_response) in
  let stream_start_time := actual_stream_start_time in
  log_message export_function kwargs start_time is_async
    stream_start_time response false.

Definition _inner_create (export_function super_function : callable)
    (args : list value) (kwargs : gmap string value) : M create_result :=
  let is_stream := dict_get kwargs "stream" (VBool false) in
  let is_async := String.eqb (fn_name super_function) "acreate" in
  let response := VNone in
  let stream_start_time : option Q := None in
  start_time ← time_time;
  if negb (truthy is_stream) then
    response ←
      try_except (inner_super_function super_function args kwargs)
        is_Exception
        (fun e =>
           inner_handle_exception export_function kwargs start_time
             is_async stream_start_time response ;;
           raise e);
    log_message export_function kwargs start_time is_async
      stream_start_time response false ;;
    mret (Returned response)
  else
    try_except
      (source ← inner_super_function super_function args kwargs;
       mret (Streaming
         {| original_iterator := source;
            delta_choice_text_getter :=
              _get_stream_delta_text_from_choice (base_class cls);
            final_choice_getter := _get_final_choice (base_class cls);
            callback :=
              _stream_done_callback export_function kwargs start_time
                is_async;
            response_fields := (stream_response_fields cls);
            initial_event_time := None;
            choices_text := ∅;
            passed_through := [];
            completed := false |}))
      is_Exception
      (fun e =>
         inner_handle_exception export_function kwargs start_time
           is_async stream_start_time response ;;
         raise e).

(** [logger.log] and [logger.alog] of the logger collaborator. *)
Definition logger_log : callable := logger_function "log" false.
Definition logger_alog : callable := logger_function "alog" true.

(** The monitored [create]: the blocking entry point. *)
Definition create (args : list value) (kwargs : gmap string value)
  : M create_result :=
  run_in_an_event_loop
    (_inner_create logger_log
       (target_function "create" false (openai_create cls)) args kwargs).

(** The monitored [acreate]: the suspending entry point. *)
Definition acreate (args : list value) (kwargs : gmap string value)
  : M create_result :=
  _inner_create logger_alog
    (target_function "acreate" true (openai_acreate cls)) args kwargs.

End monitor_with_logger.
End MonitoredOpenAI.

(** ** mona_openai.py: the REST client *)

(** [get_endpoint_wrapping(openai_endpoint_name, specs)]: the endpoint's
    analysis getter and message cleaner. *)
Record wrapping_logic : Type := {
  get_full_analysis : gmap string value -> value -> value;
  get_clean_message : gmap string value -> gmap string value
}.

(** What [get_rest_monitor_with_logger] closes over. *)
Record rest_monitor : Type := {
  openai_endpoint_name : string;
  rest_wrapping : wrapping_logic;
  rest_sampling_ratio : Q
}.

(** [{**a, **b}]: both operands must be mappings; on a shared key the
    right one wins. *)
Definition dict_unpack2 (a b : value) : result (gmap string value) :=
  match a with
  | VDict da =>
      match b with
      | VDict db => Ok (db ∪ da)
      | _ => Raise (Exn "TypeError" "object is not a mapping")
      end
  | _ => Raise (Exn "TypeError" "object is not a mapping")
  end.

Module RestClient.
Section get_rest_monitor_with_logger.

Variable rm : rest_monitor.

(** The closure [_inner_log_message] of [_inner_log_request]; its three
    parameters come as a triple. *)
Definition _inner_log_message (message_logging_function : callable)
    (request_dict : gmap string value) (additional_data : value)
    (context_id export_timestamp : value) (start_time : Q)
    (call : bool * value * value) : M value :=
  let '(is_exception, more_additional_data, response) := call in
  merged ← of_result (dict_unpack2 additional_data more_additional_data);
  message ← _get_logging_message (openai_endpoint_name rm) request_dict
              start_time is_exception false None response
              (get_full_analysis (rest_wrapping rm))
              (get_clean_message (rest_wrapping rm)) (VDict merged);
  fn_call message_logging_function
    [VDict message; context_id; export_timestamp] EMPTY_DICT.

(** [_inner_log_request] returns the pair [(log_response, log_exception)]. *)
Definition _inner_log_request (message_logging_function : callable)
    (request_dict : gmap string value) (additional_data : value)
    (context_id export_timestamp : value)
  : M ((value -> value -> M value) * (value -> M value)) :=
  start_time ← time_time;
  let additional_data :=
    match additional_data with
    | VNone => VDict EMPTY_DICT
    | _ => additional_data
    end in
  let log_message :=
    add_conditional_sampling
      (_inner_log_message message_logging_function request_dict
         additional_data context_id export_timestamp start_time)
      (rest_sampling_ratio rm) in
  let log_response := fun response additional_data =>
    log_message (false, additional_data, response) in
  let log_exception := fun additional_data =>
    log_message (true, additional_data, VNone) in
  mret (log_response, log_exception).

(** [log_request], the blocking flavour: it logs through [logger.log]. *)
Definition log_request (request_dict : gmap string value)
    (additional_data context_id export_timestamp : value)
  : M ((value -> value -> M value) * (value -> M value)) :=
  _inner_log_request (logger_function "log" false) request_dict
    additional_data context_id export_timestamp.

End get_rest_monitor_with_logger.
End RestClient.

(** ** mona_openai.py: building the monitors *)

(** An OpenAI API class: its [__name__] and its two entry points. *)
Record openai_class : Type := {
  class_name : string;
  class_create : list value -> gmap string value -> result value;
  class_acreate : list value -> gmap string value -> result value
}.

(** The helpers a monitor is built from, defined outside this file:
    [validate_and_get_sampling_ratio], [get_endpoint_wrapping] (with
    [wrap_class] for a class, as it is for a REST endpoint), and the
    stream helpers the monitored class closes over. *)
Record builders : Type := {
  validate_and_get_sampling_ratio : gmap string value -> result Q;
  get_class_wrapping : string -> gmap string value -> result endpoint_wrapping;
  get_endpoint_wrapping : string -> gmap string value -> result wrapping_logic;
  builder_get_model_param : gmap string value -> value;
  builder_get_usage : value -> list string -> list string -> value;
  builder_stream_response_fields : list value -> gmap string value
}.

(** Building a monitor acts on the logger only: the state is the list of
    names [logger.start_monitoring] was called with. *)
Abbreviation Build := (ST (list string)).

Definition start_monitoring (name : string) : Build unit := fun started =>
  (Ok tt, started ++ [name]).

Definition build_result {A : Type} (r : result A) : Build A :=
  match r with
  | Ok a => mret a
  | Raise e => raise e
  end.

Definition monitor_with_logger (b : builders) (oc : openai_class)
    (specs : gmap string value) : Build monitored_class :=
  sampling_ratio ← build_result (validate_and_get_sampling_ratio b specs);
  base_class ← build_result (get_class_wrapping b (class_name oc) specs);
  start_monitoring (class_name oc) ;;
  mret {| openai_class_name := class_name oc;
          openai_create := class_create oc;
          openai_acreate := class_acreate oc;
          base_class := base_class;
          specs := specs;
          sampling_ratio := sampling_ratio;
          get_model_param := builder_get_model_param b;
          get_usage := builder_get_usage b;
          stream_response_fields := builder_stream_response_fields b |}.

Definition get_rest_monitor_with_logger (b : builders)
    (openai_endpoint_name : string) (specs : gmap string value)
  : Build rest_monitor :=
  start_monitoring openai_endpoint_name ;;
  sampling_ratio ← build_result (validate_and_get_sampling_ratio b specs);
  wrapping_logic ←
    build_result (get_endpoint_wrapping b openai_endpoint_name specs);
  mret {| openai_endpoint_name := openai_endpoint_name;
          rest_wrapping := wrapping_logic;
          rest_sampling_ratio := sampling_ratio |}.

(** A langchain LLM object: its [client] attribute, if it has one, and its
    other attributes. *)
Record langchain_llm (C R : Type) : Type := {
  llm_client : option C;
  llm_attributes : R
}.
Arguments llm_client {C R} _.
Arguments llm_attributes {C R} _.

Definition _validate_langchain_llm {S C R : Type} (llm : langchain_llm C R)
  : ST S unit :=
  match llm_client llm with
  | None =>
      raise (Exn "InvalidLagnchainLLMException"
               "LLM has no client attribute - must be an OpenAI LLM")
  | Some _ => mret tt
  end.

(** [monitor_langchain_llm_with_logger]; [monitor] is
    [monitor_with_logger] with its logger and specs, giving the class that
    replaces [llm.client]. *)
Definition monitor_langchain_llm_with_logger {S C C' R : Type}
    (monitor : C -> ST S C') (llm : langchain_llm C R)
  : ST S (langchain_llm C' R) :=
  _validate_langchain_llm llm ;;
  match llm_client llm with
  | Some client =>
      monitored ← monitor client;
      mret {| llm_client := Some monitored;
              llm_attributes := llm_attributes llm |}
  | None => raise (Exn "AttributeError" "object has no attribute 'client'")
  end.

(** * Vocabulary of the statements *)

(** The mapping [_get_logging_message] assembles before it hands it to the
    message cleaner, for a clock reading [now]. *)
Definition assembled_message (cls : monitored_class)
    (kwargs : gmap string value) (start_time now : Q)
    (is_exception is_async : bool) (stream_start_time : option Q)
    (response : value) : gmap string value :=
  let request_input := without_mona_args kwargs in
  let additional_data :=
    dict_get kwargs ADDITIONAL_DATA_ARG_NAME (VDict EMPTY_DICT) in
  let base : gmap string value :=
    <["is_async" := VBool is_async]>
    (<["api_name" := VStr (openai_class_name cls)]>
    (<["is_exception" := VBool is_exception]>
    (<["stream_start_latency" :=
         match stream_start_time with
         | Some t => VFloat (t - start_time)
         | None => VNone
         end]>
    (<["latency" := VFloat (now - start_time)]>
    (<["input" := VDict request_input]> ∅))))) in
  let with_data :=
    if truthy additional_data
    then <["additional_data" := additional_data]> base else base in
  if truthy response
  then <["analysis" :=
           _get_full_analysis (base_class cls) request_input response]>
         (<["response" := response]> with_data)
  else with_data.

(** The record the logger receives when the clock reads [now] and the
    default context id is [context_default]. *)
Definition logged_record (cls : monitored_class) (kwargs : gmap string value)
    (start_time now : Q) (is_exception is_async : bool)
    (stream_start_time : option Q) (response context_default : value)
  : emission :=
  Emission
    (VDict (_get_clean_message (base_class cls)
              (assembled_message cls kwargs start_time now is_exception
                 is_async stream_start_time response)))
    (dict_get kwargs CONTEXT_ID_ARG_NAME context_default)
    (dict_get kwargs EXPORT_TIMESTAMP_ARG_NAME (VFloat start_time)).

(** The flag of [specs] that switches exception records off. *)
Definition avoid_monitoring_exceptions (cls : monitored_class) : bool :=
  truthy (dict_get (specs cls) "avoid_monitoring_exceptions" (VBool false)).

(** The gathering iterator [_inner_create] returns for a streamed call. *)
Definition gathering_iterator (cls : monitored_class)
    (export_function : callable) (kwargs : gmap string value)
    (start_time : Q) (is_async : bool) (source : value)
  : ResponseGatheringIterator :=
  {| original_iterator := source;
     delta_choice_text_getter :=
       _get_stream_delta_text_from_choice (base_class cls);
     final_choice_getter := _get_final_choice (base_class cls);
     callback :=
       MonitoredOpenAI._stream_done_callback cls export_function kwargs
         start_time is_async;
     response_fields := stream_response_fields cls;
     initial_event_time := None;
     choices_text := ∅;
     passed_through := [];
     completed := false |}.

(** The partial delta texts of choice [i], in arrival order, and their
    concatenation. *)
Definition deltas_of (getter : value -> string) (i : Z)
    (chunks : list value) : list string :=
  getter <$>
    filter (fun choice => choice_index choice = Some i)
      (chunks ≫= chunk_choices).

Definition joined (texts : list string) : string :=
  foldr String.append "" texts.

(** The response [_stream_done_callback] logs for a synthesized final
    response. *)
Definition with_usage (cls : monitored_class) (kwargs : gmap string value)
    (final_response : gmap string value) : gmap string value :=
  <["usage" :=
      get_usage cls (get_model_param cls kwargs)
        (_get_all_prompt_texts (base_class cls) kwargs)
        (_get_all_response_texts (base_class cls) final_response)]>
    final_response.

(** The final response a gathering iterator synthesizes from the chunks
    it passed through. *)
Definition synthesized_response (cls : monitored_class)
    (chunks : list value) : gmap string value :=
  <["choices" :=
      VList ((fun p => _get_final_choice (base_class cls) (fst p) (snd p))
               <$> map_to_list
                     (foldl (add_chunk (_get_stream_delta_text_from_choice
                                          (base_class cls)))
                        ∅ chunks))]>
    (stream_response_fields cls chunks).

(** When the first chunk of a stream arrives, if any. *)
Definition stream_start (chunks : list value) (w : world) : option Q :=
  match chunks with
  | [] => None
  | _ :: _ => Some (clock w (ticks w))
  end.

Definition after_first_chunk (chunks : list value) (w : world) : world :=
  match chunks with
  | [] => w
  | _ :: _ => tick w
  end.

(** A task whose outcome and effects do not involve the scheduler. *)
Definition scheduler_oblivious {A : Type} (c : M A) : Prop :=
  forall (w : world) l n ev,
    c (with_sched l n ev w) =
    (fst (c w), with_sched l n ev (snd (c w))).

Definition raises_RuntimeError {A : Type} (r : result A) : bool :=
  match r with
  | Ok _ => false
  | Raise e => is_RuntimeError e
  end.

(** A record whose message carries no reserved argument in its [input]
    and to which the reserved arguments of [kwargs] were routed: the
    additional data to the [additional_data] field, the context id and the
    export timestamp to the logger's own parameters. *)
Definition routed (cls : monitored_class) (kwargs : gmap string value)
    (em : emission) : Prop :=
  exists message input : gmap string value,
    em_message em = VDict (_get_clean_message (base_class cls) message) /\
    message !! "input" = Some (VDict input) /\
    (forall key, String.prefix MONA_ARGS_PREFIX key = true ->
                 input !! key = None) /\
    (forall data, kwargs !! ADDITIONAL_DATA_ARG_NAME = Some data ->
                  truthy data = true ->
                  message !! "additional_data" = Some data) /\
    (forall c, kwargs !! CONTEXT_ID_ARG_NAME = Some c ->
               em_context_id em = c) /\
    (forall t, kwargs !! EXPORT_TIMESTAMP_ARG_NAME = Some t ->
               em_export_timestamp em = t).

(** A record whose message says whether it reports an exception. *)
Definition record_kind (cls : monitored_class) (em : emission)
    (is_exception : bool) : Prop :=
  exists message : gmap string value,
    em_message em = VDict (_get_clean_message (base_class cls) message) /\
    message !! "is_exception" = Some (VBool is_exception) /\
    (is_exception = true -> message !! "response" = None).

(** ** Sample inputs *)

(** A world whose clock reads 0, 1, 2, ... and whose random draws are all
    one half. *)
Definition sample_world (l : loop_state) : world :=
  World (fun n => inject_Z (Z.of_nat n)) 0 (fun _ => 1 # 2) 0 [] [] l false [].

Definition sample_wrapping : endpoint_wrapping :=
  {| _get_full_analysis := fun _ _ => VStr "analysis";
     _get_clean_message := fun message => message;
     _get_all_prompt_texts := fun _ => [];
     _get_all_response_texts := fun _ => [];
     _get_stream_delta_text_from_choice := fun choice =>
       match choice with
       | VDict d => match d !! "text" with Some (VStr s) => s | _ => "" end
       | _ => ""
       end;
     _get_final_choice := fun i text =>
       VDict (<["index" := VInt i]> (<["text" := VStr text]> ∅)) |}.

Definition sample_class
    (behaviour : list value -> gmap string value -> result value)
    (specs : gmap string value) (ratio : Q) : monitored_class :=
  {| openai_class_name := "Completion";
     openai_create := behaviour;
     openai_acreate := behaviour;
     base_class := sample_wrapping;
     specs := specs;
     sampling_ratio := ratio;
     get_model_param := fun kwargs => dict_get kwargs "model" VNone;
     get_usage := fun _ _ _ => VDict (<["total_tokens" := VInt 0]> ∅);
     stream_response_fields := fun _ => <["id" := VStr "r1"]> ∅ |}.

Definition sample_kwargs : gmap string value :=
  <["prompt" := VStr "hello"]> ∅.

Definition returns (v : value)
  : list value -> gmap string value -> result value := fun _ _ => Ok v.

Definition raises (kind msg : string)
  : list value -> gmap string value -> result value :=
  fun _ _ => Raise (Exn kind msg).

Definition sample_response : value := VDict (<["id" := VStr "r1"]> ∅).

Definition sample_chunk (text : string) : value :=
  VDict (<["id" := VStr "r1"]>
        (<["choices" :=
             VList [VDict (<["index" := VInt 0]>
                          (<["text" := VStr text]> ∅))]]> ∅)).

Definition sample_chunks : list value :=
  [sample_chunk "a"; sample_chunk "b"; sample_chunk "c"; sample_chunk "d"].

Definition sample_stream_kwargs : gmap string value :=
  <["stream" := VBool true]> sample_kwargs.

Definition sample_data : gmap string value :=
  <["customer_id" := VStr "A531251"]> ∅.

(** ** Sample inputs of the further properties *)

Definition sample_wrapping_logic : wrapping_logic :=
  {| get_full_analysis := fun _ _ => VStr "analysis";
     get_clean_message := fun message => message |}.

Definition sample_rest_monitor (ratio : Q) : rest_monitor :=
  {| openai_endpoint_name := "Completion";
     rest_wrapping := sample_wrapping_logic;
     rest_sampling_ratio := ratio |}.

Definition sample_openai_class
    (behaviour : list value -> gmap string value -> result value)
  : openai_class :=
  {| class_name := "Completion";
     class_create := behaviour;
     class_acreate := behaviour |}.

(** Builders that accept a [sampling_ratio] entry holding a float in [0,1]
    (1 when absent) and know the endpoint "Completion" only. *)
Definition sample_builders : builders :=
  {| validate_and_get_sampling_ratio := fun specs =>
       match specs !! "sampling_ratio" with
       | None => Ok 1%Q
       | Some (VFloat q) =>
           if Qle_bool 0 q && Qle_bool q 1 then Ok q
           else Raise (Exn "InvalidSamplingRatioException" "not in [0,1]")
       | Some _ => Raise (Exn "InvalidSamplingRatioException" "not a float")
       end;
     get_class_wrapping := fun name _ =>
       if String.eqb name "Completion" then Ok sample_wrapping
       else Raise (Exn "WrongOpenAIClassException" name);
     get_endpoint_wrapping := fun name _ =>
       if String.eqb name "Completion" then Ok sample_wrapping_logic
       else Raise (Exn "WrongOpenAIClassException" name);
     builder_get_model_param := fun kwargs => dict_get kwargs "model" VNone;
     builder_get_usage := fun _ _ _ => VNone;
     builder_stream_response_fields := fun _ => ∅ |}.

(** The mapping the module-level [_get_logging_message] assembles before
    it hands it to the message cleaner, for a clock reading [now]. *)
Definition built_message (api_name : string)
    (request_input : gmap string value) (start_time now : Q)
    (is_exception is_async : bool) (stream_start_time : option Q)
    (response : value)
    (analysis_getter : gmap string value -> value -> value)
    (additional_data : value) : gmap string value :=
  let base : gmap string value :=
    <["is_async" := VBool is_async]>
    (<["api_name" := VStr api_name]>
    (<["is_exception" := VBool is_exception]>
    (<["stream_start_latency" :=
         match stream_start_time with
         | Some t => VFloat (t - start_time)
         | None => VNone
         end]>
    (<["latency" := VFloat (now - start_time)]>
    (<["input" := VDict request_input]> ∅))))) in
  let with_data :=
    if truthy additional_data
    then <["additional_data" := additional_data]> base else base in
  if truthy response
  then <["analysis" := analysis_getter request_input response]>
         (<["response" := response]> with_data)
  else with_data.

(** The two callbacks [log_request] returns when it is called in the world
    [w]. *)
Definition rest_log_response (rm : rest_monitor)
    (request_dict : gmap string value)
    (additional_data context_id export_timestamp : value) (w : world)
  : value -> value -> M value :=
  match fst (RestClient.log_request rm request_dict additional_data
               context_id export_timestamp w) with
  | Ok callbacks => fst callbacks
  | Raise e => fun _ _ => raise e
  end.

Definition rest_log_exception (rm : rest_monitor)
    (request_dict : gmap string value)
    (additional_data context_id export_timestamp : value) (w : world)
  : value -> M value :=
  match fst (RestClient.log_request rm request_dict additional_data
               context_id export_timestamp w) with
  | Ok callbacks => snd callbacks
  | Raise e => fun _ => raise e
  end.

(** The record the REST client hands to the logger. *)
Definition rest_record (rm : rest_monitor) (request_dict : gmap string value)
    (context_id export_timestamp : value) (start_time now : Q)
    (is_exception : bool) (response : value)
    (merged : gmap string value) : emission :=
  Emission
    (VDict (get_clean_message (rest_wrapping rm)
              (built_message (openai_endpoint_name rm) request_dict
                 start_time now is_exception false None response
                 (get_full_analysis (rest_wrapping rm)) (VDict merged))))
    context_id export_timestamp.

(** * Properties *)

(** ** Running computations step by step *)

Lemma bind_run {S A B : Type} (m : ST S A) (f : A -> ST S B) (s : S) :
  (m ≫= f) s =
  match m s with
  | (Ok a, s') => f a s'
  | (Raise e, s') => (Raise e, s')
  end.
Proof. reflexivity. Qed.

Lemma ret_run {S A : Type} (a : A) (s : S) : (mret a : ST S A) s = (Ok a, s).
Proof. reflexivity. Qed.

Lemma raise_run {S A : Type} (e : exn) (s : S) :
  (raise e : ST S A) s = (Raise e, s).
Proof. reflexivity. Qed.

Lemma try_except_run {S A : Type} (body : ST S A) caught handler (s : S) :
  try_except body caught handler s =
  match body s with
  | (Ok a, s') => (Ok a, s')
  | (Raise e, s') => if caught e then handler e s' else (Raise e, s')
  end.
Proof. reflexivity. Qed.

Lemma Qlt_bool_iff (x y : Q) : Qlt_bool x y = true <-> (x < y)%Q.
Proof.
  unfold Qlt_bool. rewrite negb_true_iff. split.
  - intros H. apply Qnot_le_lt. intros Hle.
    apply Qle_bool_iff in Hle. congruence.
  - intros H. destruct (Qle_bool y x) eqn:E; [|reflexivity].
    apply Qle_bool_iff in E. exfalso. exact (Qlt_not_le _ _ H E).
Qed.

Lemma Qlt_bool_false_iff (x y : Q) : Qlt_bool x y = false <-> (y <= x)%Q.
Proof.
  unfold Qlt_bool. rewrite negb_false_iff. apply Qle_bool_iff.
Qed.

(** ** Reserved arguments are stripped *)

Lemma without_mona_args_lookup (kwargs : gmap string value) (k : string)
    (v : value) :
  without_mona_args kwargs !! k = Some v <->
  kwargs !! k = Some v /\ String.prefix MONA_ARGS_PREFIX k = false.
Proof. unfold without_mona_args. by rewrite map_lookup_filter_Some. Qed.

Lemma without_mona_args_reserved (kwargs : gmap string value) (k : string) :
  String.prefix MONA_ARGS_PREFIX k = true ->
  without_mona_args kwargs !! k = None.
Proof.
  intros Hp. destruct (without_mona_args kwargs !! k) as [v|] eqn:E; [|done].
  apply without_mona_args_lookup in E as [_ E]. congruence.
Qed.

Lemma without_mona_args_other (kwargs : gmap string value) (k : string) :
  String.prefix MONA_ARGS_PREFIX k = false ->
  without_mona_args kwargs !! k = kwargs !! k.
Proof.
  intros Hp. destruct (kwargs !! k) as [v|] eqn:E.
  - apply without_mona_args_lookup. done.
  - destruct (without_mona_args kwargs !! k) as [v|] eqn:E'; [|done].
    apply without_mona_args_lookup in E' as [E' _]. congruence.
Qed.

(** ** The logging message *)

Lemma get_logging_message_run cls kwargs start_time is_exception is_async
    stream_start_time response (w : world) :
  MonitoredOpenAI._get_logging_message cls kwargs start_time is_exception
    is_async stream_start_time response w =
  (Ok (_get_clean_message (base_class cls)
         (assembled_message cls kwargs start_time (clock w (ticks w))
            is_exception is_async stream_start_time response)),
   tick w).
Proof. reflexivity. Qed.

Lemma inner_log_message_run cls name is_co kwargs start_time is_async
    stream_start_time response is_exception (w : world) :
  MonitoredOpenAI._inner_log_message cls (logger_function name is_co) kwargs
    start_time is_async stream_start_time response is_exception w =
  if truthy response then
    match subscript response "id" with
    | Ok i =>
        (Ok VNone,
         emitted (logged_record cls kwargs start_time (clock w (ticks w))
                    is_exception is_async stream_start_time response i)
           (tick w))
    | Raise e => (Raise e, tick w)
    end
  else
    (Ok VNone,
     emitted (logged_record cls kwargs start_time (clock w (ticks w))
                is_exception is_async stream_start_time response VNone)
       (tick w)).
Proof.
  unfold MonitoredOpenAI._inner_log_message.
  rewrite bind_run, get_logging_message_run.
  destruct (truthy response).
  - rewrite bind_run. destruct (subscript response "id"); [|reflexivity].
    destruct is_co; reflexivity.
  - destruct is_co; reflexivity.
Qed.

Lemma log_message_run cls export_function kwargs start_time is_async
    stream_start_time response is_exception (w : world) :
  MonitoredOpenAI.log_message cls export_function kwargs start_time is_async
    stream_start_time response is_exception w =
  if Qlt_bool (rand w (draws w)) (sampling_ratio cls)
  then MonitoredOpenAI._inner_log_message cls export_function kwargs
         start_time is_async stream_start_time response is_exception (drew w)
  else (Ok VNone, drew w).
Proof.
  unfold MonitoredOpenAI.log_message, add_conditional_sampling.
  rewrite bind_run. unfold random.
  destruct (Qlt_bool _ _); reflexivity.
Qed.

Lemma inner_super_function_run name is_co behaviour args kwargs (w : world) :
  MonitoredOpenAI.inner_super_function (target_function name is_co behaviour)
    args kwargs w =
  (behaviour args (without_mona_args kwargs),
   called args (without_mona_args kwargs) w).
Proof.
  unfold MonitoredOpenAI.inner_super_function, call_non_blocking_sync_or_async.
  destruct is_co; simpl; rewrite bind_run; unfold record_call;
    destruct (behaviour _ _); reflexivity.
Qed.

(** A plain (not streamed) call, step by step. *)
Lemma inner_create_plain_run cls ename e_co tname t_co behaviour args kwargs
    (w : world) :
  truthy (dict_get kwargs "stream" (VBool false)) = false ->
  let start_time := clock w (ticks w) in
  let is_async := String.eqb tname "acreate" in
  let w1 := called args (without_mona_args kwargs) (tick w) in
  MonitoredOpenAI._inner_create cls (logger_function ename e_co)
    (target_function tname t_co behaviour) args kwargs w =
  match behaviour args (without_mona_args kwargs) with
  | Ok response =>
      match MonitoredOpenAI.log_message cls (logger_function ename e_co)
              kwargs start_time is_async None response false w1 with
      | (Ok _, w2) => (Ok (Returned response), w2)
      | (Raise e, w2) => (Raise e, w2)
      end
  | Raise e =>
      if is_Exception e then
        if avoid_monitoring_exceptions cls then (Raise e, w1)
        else
          match MonitoredOpenAI.log_message cls (logger_function ename e_co)
                  kwargs start_time is_async None VNone true w1 with
          | (Ok _, w2) => (Raise e, w2)
          | (Raise e', w2) => (Raise e', w2)
          end
      else (Raise e, w1)
  end.
Proof.
  intros Hs start_time is_async w1.
  unfold MonitoredOpenAI._inner_create. rewrite bind_run. unfold time_time.
  rewrite Hs. cbn [negb].
  rewrite bind_run, try_except_run, inner_super_function_run.
  fold w1. fold start_time. cbn [fn_name target_function]. fold is_async.
  destruct (behaviour args (without_mona_args kwargs)) as [v|e].
  - rewrite bind_run.
    destruct (MonitoredOpenAI.log_message _ _ _ _ _ _ _ _ _) as [[?|?] ?];
      reflexivity.
  - destruct (is_Exception e); [|reflexivity].
    rewrite bind_run. unfold MonitoredOpenAI.inner_handle_exception.
    fold (avoid_monitoring_exceptions cls).
    destruct (avoid_monitoring_exceptions cls); cbn [negb].
    + reflexivity.
    + destruct (MonitoredOpenAI.log_message _ _ _ _ _ _ _ _ _) as [[?|?] ?];
        reflexivity.
Qed.

(** A streamed call, up to the point where the iterator is handed back. *)
Lemma inner_create_stream_run cls ename e_co tname t_co behaviour args kwargs
    (w : world) :
  truthy (dict_get kwargs "stream" (VBool false)) = true ->
  let start_time := clock w (ticks w) in
  let is_async := String.eqb tname "acreate" in
  let w1 := called args (without_mona_args kwargs) (tick w) in
  MonitoredOpenAI._inner_create cls (logger_function ename e_co)
    (target_function tname t_co behaviour) args kwargs w =
  match behaviour args (without_mona_args kwargs) with
  | Ok source =>
      (Ok (Streaming (gathering_iterator cls (logger_function ename e_co)
                        kwargs start_time is_async source)), w1)
  | Raise e =>
      if is_Exception e then
        if avoid_monitoring_exceptions cls then (Raise e, w1)
        else
          match MonitoredOpenAI.log_message cls (logger_function ename e_co)
                  kwargs start_time is_async None VNone true w1 with
          | (Ok _, w2) => (Raise e, w2)
          | (Raise e', w2) => (Raise e', w2)
          end
      else (Raise e, w1)
  end.
Proof.
  intros Hs start_time is_async w1.
  unfold MonitoredOpenAI._inner_create. rewrite bind_run. unfold time_time.
  rewrite Hs. cbn [negb].
  rewrite try_except_run, bind_run, inner_super_function_run.
  fold w1. fold start_time. cbn [fn_name target_function]. fold is_async.
  destruct (behaviour args (without_mona_args kwargs)) as [v|e].
  - reflexivity.
  - destruct (is_Exception e); [|reflexivity].
    rewrite bind_run. unfold MonitoredOpenAI.inner_handle_exception.
    fold (avoid_monitoring_exceptions cls).
    destruct (avoid_monitoring_exceptions cls); cbn [negb].
    + reflexivity.
    + destruct (MonitoredOpenAI.log_message _ _ _ _ _ _ _ _ _) as [[?|?] ?];
        reflexivity.
Qed.

(** ** The gathering iterator *)

Lemma consume_S (fuel : nat) (it : ResponseGatheringIterator) :
  consume (S fuel) it =
  (r ← rgi_next it;
   match fst r with
   | None => mret ([], snd r)
   | Some chunk =>
       rest ← consume fuel (snd r);
       mret (chunk :: fst rest, snd rest)
   end).
Proof. reflexivity. Qed.

(** Once the first chunk was seen, the caller's loop hands over the
    remaining chunks and then fires the completion callback. *)
Lemma consume_started (chunks : list value) :
  forall (it : ResponseGatheringIterator) (w : world) (fuel : nat) (t : Q),
  original_iterator it = VIter chunks ->
  initial_event_time it = Some t ->
  completed it = false ->
  length chunks < fuel ->
  let acc := foldl (add_chunk (delta_choice_text_getter it))
               (choices_text it) chunks in
  let seen := passed_through it ++ chunks in
  consume fuel it w =
  match callback it
          (create_singular_response
             (with_state it (VIter []) (Some t) acc seen false))
          (Some t) w with
  | (Ok _, w2) =>
      (Ok (chunks, with_state it (VIter []) (Some t) acc seen true), w2)
  | (Raise e, w2) => (Raise e, w2)
  end.
Proof.
  induction chunks as [|chunk rest IH]; intros it w fuel t Hsrc Ht Hc Hfuel.
  - destruct fuel as [|fuel]; [simpl in Hfuel; lia|].
    cbn [consume foldl]. rewrite app_nil_r.
    rewrite bind_run. unfold rgi_next. rewrite Hsrc, Hc, Ht.
    rewrite bind_run. unfold create_singular_response, with_state. cbn.
    destruct (callback it _ _ w) as [[?|?] ?]; reflexivity.
  - destruct fuel as [|fuel]; [simpl in Hfuel; lia|].
    cbn [consume]. rewrite bind_run. unfold rgi_next.
    rewrite Hsrc, Ht, Hc. rewrite bind_run, ret_run, ret_run.
    cbn [fst snd]. rewrite bind_run.
    rewrite (IH _ w fuel t); cbn [with_state original_iterator
      initial_event_time completed delta_choice_text_getter choices_text
      passed_through callback]; try reflexivity; [|simpl in Hfuel; lia].
    cbn [foldl]. rewrite <- app_assoc. cbn [app].
    unfold create_singular_response, with_state. cbn.
    destruct (callback it _ _ w) as [[?|?] ?]; reflexivity.
Qed.

Lemma stream_done_callback_run cls export_function kwargs start_time is_async
    final_response stream_start_time (w : world) :
  MonitoredOpenAI._stream_done_callback cls export_function kwargs start_time
    is_async final_response stream_start_time w =
  MonitoredOpenAI.log_message cls export_function kwargs start_time is_async
    stream_start_time (VDict (with_usage cls kwargs final_response)) false w.
Proof. reflexivity. Qed.

(** Exhausting the iterator of a streamed call: every chunk is handed over,
    then the completion callback logs the synthesized response. *)
Lemma exhaust_gathering_run cls export_function kwargs start_time is_async
    (chunks : list value) (w : world) :
  exists it',
    completed it' = true /\ original_iterator it' = VIter [] /\
    callback it' =
      MonitoredOpenAI._stream_done_callback cls export_function kwargs
        start_time is_async /\
    exhaust (gathering_iterator cls export_function kwargs start_time
               is_async (VIter chunks)) w =
    match MonitoredOpenAI.log_message cls export_function kwargs start_time
            is_async (stream_start chunks w)
            (VDict (with_usage cls kwargs (synthesized_response cls chunks)))
            false (after_first_chunk chunks w) with
    | (Ok _, w2) => (Ok (chunks, it'), w2)
    | (Raise e, w2) => (Raise e, w2)
    end.
Proof.
  destruct chunks as [|chunk rest].
  - eexists. split; [|split; [|split]]; cycle 3.
    + unfold exhaust, remaining, gathering_iterator. cbn [original_iterator
        length consume]. rewrite bind_run. unfold rgi_next.
      cbn [original_iterator completed callback initial_event_time].
      rewrite bind_run, stream_done_callback_run.
      unfold create_singular_response, synthesized_response.
      cbn [final_choice_getter choices_text response_fields passed_through
           stream_start after_first_chunk foldl].
      destruct (MonitoredOpenAI.log_message _ _ _ _ _ _ _ _ _) as [[?|?] ?];
        reflexivity.
    + reflexivity.
    + reflexivity.
    + reflexivity.
  - eexists. split; [|split; [|split]]; cycle 3.
    + unfold exhaust, remaining, gathering_iterator.
      cbn [original_iterator length]. rewrite consume_S.
      rewrite bind_run. unfold rgi_next.
      cbn [original_iterator initial_event_time].
      rewrite bind_run, bind_run. unfold time_time. rewrite ret_run, ret_run.
      cbn [fst snd]. rewrite bind_run.
      rewrite (consume_started rest _ (tick w) (S (length rest))
                 (clock w (ticks w))); try reflexivity; [|lia].
      cbn [with_state callback delta_choice_text_getter choices_text
           passed_through]. rewrite stream_done_callback_run.
      unfold create_singular_response, synthesized_response, with_state.
      cbn [final_choice_getter choices_text response_fields passed_through
           stream_start after_first_chunk foldl app].
      destruct (MonitoredOpenAI.log_message _ _ _ _ _ _ _ _ _) as [[?|?] ?];
        reflexivity.
    + reflexivity.
    + reflexivity.
    + reflexivity.
Qed.

(** ** What the accumulators hold *)

Lemma append_empty_r (s : string) : s +:+ "" = s.
Proof.
  induction s as [|a s IH]; [reflexivity|].
  change (String a s +:+ "") with (String a (s +:+ "")). by rewrite IH.
Qed.

Lemma append_assoc (s1 s2 s3 : string) :
  (s1 +:+ s2) +:+ s3 = s1 +:+ (s2 +:+ s3).
Proof.
  induction s1 as [|a s IH]; [reflexivity|].
  change ((String a s +:+ s2) +:+ s3) with (String a ((s +:+ s2) +:+ s3)).
  by rewrite IH.
Qed.

Lemma foldl_add_chunk (getter : value -> string) (chunks : list value) :
  forall acc : gmap Z string,
  foldl (add_chunk getter) acc chunks =
  foldl (add_choice getter) acc (chunks ≫= chunk_choices).
Proof.
  induction chunks as [|chunk rest IH]; intros acc; [reflexivity|].
  rewrite bind_cons, foldl_app. cbn [foldl]. by rewrite IH.
Qed.

Lemma gathered_choices (getter : value -> string) (i : Z)
    (choices : list value) :
  forall acc : gmap Z string,
  foldl (add_choice getter) acc choices !! i =
  match filter (fun choice => choice_index choice = Some i) choices with
  | [] => acc !! i
  | l => Some (default "" (acc !! i) +:+ joined (getter <$> l))
  end.
Proof.
  induction choices as [|choice rest IH]; intros acc; [reflexivity|].
  cbn [foldl]. rewrite IH, filter_cons. unfold add_choice.
  destruct (decide (choice_index choice = Some i)) as [Hi|Hi].
  - rewrite Hi, lookup_insert_eq. cbn [default].
    destruct (filter _ rest) as [|c l].
    + change (joined (getter <$> [choice])) with (getter choice +:+ "").
      by rewrite append_empty_r.
    + change (joined (getter <$> choice :: c :: l))
        with (getter choice +:+ joined (getter <$> c :: l)).
      unfold id. by rewrite append_assoc.
  - destruct (choice_index choice) as [j|] eqn:Hj; [|reflexivity].
    rewrite lookup_insert_ne by congruence. reflexivity.
Qed.

(** The accumulator of choice [i] is the concatenation of its delta texts in
    arrival order; an index no chunk mentions has no accumulator. *)
Lemma gathered_text (getter : value -> string) (chunks : list value) (i : Z) :
  foldl (add_chunk getter) ∅ chunks !! i =
  match deltas_of getter i chunks with
  | [] => None
  | _ => Some (joined (deltas_of getter i chunks))
  end.
Proof.
  rewrite foldl_add_chunk, gathered_choices. unfold deltas_of.
  destruct (filter _ _) as [|c l]; reflexivity.
Qed.

(** ** The event loop bridge *)

Ltac unfold_sched :=
  unfold asyncio_run, get_event_loop_run_until_complete, nest_asyncio_apply,
    lift, drive, get_world, set_loop, try_except, mbind, ST_bind, mret,
    ST_ret, raise;
  cbn [fst snd nested loop sched with_sched].

Lemma asyncio_run_fresh {A : Type} (c : M A) (w : world) :
  nested w = false -> loop w <> LoopRunning ->
  asyncio_run c (Created, w) =
  let r := c (with_sched LoopRunning false (sched w ++ [FreshLoopRun]) w) in
  (fst r, (Awaited, with_sched LoopUnset false (sched (snd r)) (snd r))).
Proof.
  intros Hn Hl. unfold_sched. rewrite Hn.
  destruct (loop w); try congruence;
    cbn [fst snd nested loop sched with_sched];
    destruct (c _) as [[a|e] w']; cbn [fst snd nested loop sched with_sched];
    by rewrite app_nil_r.
Qed.

Lemma is_RuntimeError_RuntimeError (msg : string) :
  is_RuntimeError (Exn "RuntimeError" msg) = true.
Proof. reflexivity. Qed.

(** Outside a running scheduler the first attempt, [asyncio.run], decides:
    a fresh scheduler runs the task.  Only a [RuntimeError] of the task
    sends the code to its fall-backs, which find the coroutine object
    already awaited. *)
Lemma run_in_an_event_loop_not_running {A : Type} (c : M A) (w : world) :
  nested w = false -> loop w <> LoopRunning ->
  run_in_an_event_loop c w =
  let r := c (with_sched LoopRunning false (sched w ++ [FreshLoopRun]) w) in
  if raises_RuntimeError (fst r)
  then (Raise (Exn "RuntimeError" "cannot reuse already awaited coroutine"),
        with_sched LoopIdle true
          (sched (snd r) ++ [NestApplied; NestedRun]) (snd r))
  else (fst r, with_sched LoopUnset false (sched (snd r)) (snd r)).
Proof.
  intros Hn Hl. unfold run_in_an_event_loop.
  rewrite try_except_run, asyncio_run_fresh by assumption.
  cbv zeta. destruct (c _) as [[a|e] w']; cbn [fst snd raises_RuntimeError].
  - reflexivity.
  - destruct (is_RuntimeError e); [|reflexivity].
    unfold_sched. rewrite is_RuntimeError_RuntimeError.
    cbn [fst snd nested loop sched with_sched].
    rewrite !app_nil_r, <- app_assoc. reflexivity.
Qed.

(** Inside a running scheduler the first two attempts raise before the task
    is started; the reentrancy patch is installed and the task runs
    nested. *)
Lemma run_in_an_event_loop_running {A : Type} (c : M A) (w : world) :
  nested w = false -> loop w = LoopRunning ->
  run_in_an_event_loop c w =
  let r := c (with_sched LoopRunning true
                (sched w ++ [NestApplied; NestedRun]) w) in
  (fst r, with_sched LoopRunning true (sched (snd r)) (snd r)).
Proof.
  intros Hn Hl. unfold run_in_an_event_loop. unfold_sched.
  rewrite Hn, Hl. rewrite !is_RuntimeError_RuntimeError.
  cbn [fst snd nested loop sched with_sched]. rewrite Hn, Hl.
  rewrite !is_RuntimeError_RuntimeError.
  cbn [fst snd nested loop sched with_sched].
  rewrite <- app_assoc. cbn [app].
  destruct (c _) as [[a|e] w']; cbn [fst snd nested loop sched with_sched];
    rewrite ?app_nil_r, ?Hl; reflexivity.
Qed.

Lemma with_sched_with_sched l n ev l' n' ev' (w : world) :
  with_sched l n ev (with_sched l' n' ev' w) = with_sched l n ev w.
Proof. reflexivity. Qed.




(** ** One pass through the sampling gate *)

Lemma log_message_logger_run cls name is_co kwargs start_time is_async
    stream_start_time response is_exception (w : world) :
  MonitoredOpenAI.log_message cls (logger_function name is_co) kwargs
    start_time is_async stream_start_time response is_exception w =
  if Qlt_bool (rand w (draws w)) (sampling_ratio cls) then
    if truthy response then
      match subscript response "id" with
      | Ok i =>
          (Ok VNone,
           emitted (logged_record cls kwargs start_time (clock w (ticks w))
                      is_exception is_async stream_start_time response i)
             (tick (drew w)))
      | Raise e => (Raise e, tick (drew w))
      end
    else
      (Ok VNone,
       emitted (logged_record cls kwargs start_time (clock w (ticks w))
                  is_exception is_async stream_start_time response VNone)
         (tick (drew w)))
  else (Ok VNone, drew w).
Proof.
  rewrite log_message_run, inner_log_message_run. reflexivity.
Qed.

(** ** Fields of the assembled message *)

Section assembled.
Variables (cls : monitored_class) (kwargs : gmap string value).
Variables (start_time now : Q) (is_exception is_async : bool).
Variables (stream_start_time : option Q) (response : value).

Lemma assembled_input :
  assembled_message cls kwargs start_time now is_exception is_async
    stream_start_time response !! "input" =
  Some (VDict (without_mona_args kwargs)).
Proof.
  unfold assembled_message.
  repeat case_match; by simplify_map_eq.
Qed.

Lemma assembled_latency :
  assembled_message cls kwargs start_time now is_exception is_async
    stream_start_time response !! "latency" = Some (VFloat (now - start_time)).
Proof.
  unfold assembled_message.
  repeat case_match; by simplify_map_eq.
Qed.

Lemma assembled_stream_start_latency :
  assembled_message cls kwargs start_time now is_exception is_async
    stream_start_time response !! "stream_start_latency" =
  Some (match stream_start_time with
        | Some t => VFloat (t - start_time)
        | None => VNone
        end).
Proof.
  unfold assembled_message.
  repeat case_match; by simplify_map_eq.
Qed.

Lemma assembled_is_exception :
  assembled_message cls kwargs start_time now is_exception is_async
    stream_start_time response !! "is_exception" = Some (VBool is_exception).
Proof.
  unfold assembled_message.
  repeat case_match; by simplify_map_eq.
Qed.

Lemma assembled_additional_data :
  assembled_message cls kwargs start_time now is_exception is_async
    stream_start_time response !! "additional_data" =
  (let additional_data :=
     dict_get kwargs ADDITIONAL_DATA_ARG_NAME (VDict EMPTY_DICT) in
   if truthy additional_data then Some additional_data else None).
Proof.
  unfold assembled_message. cbv zeta.
  repeat case_match; by simplify_map_eq.
Qed.

Lemma assembled_response :
  assembled_message cls kwargs start_time now is_exception is_async
    stream_start_time response !! "response" =
  if truthy response then Some response else None.
Proof.
  unfold assembled_message.
  repeat case_match; by simplify_map_eq.
Qed.

End assembled.

(** ** Records of a plain call *)

(** What a plain call adds to the logger's records: at most one record,
    built from the call's own start time, a later clock reading, no stream
    start time, and the response (or none, for an exception record). *)
Lemma plain_call_exported cls ename e_co tname t_co behaviour args kwargs
    (w : world) :
  truthy (dict_get kwargs "stream" (VBool false)) = false ->
  let out := MonitoredOpenAI._inner_create cls (logger_function ename e_co)
               (target_function tname t_co behaviour) args kwargs w in
  exists new : list emission,
    exported (snd out) = exported w ++ new /\
    length new <= 1 /\
    forall em, em ∈ new ->
      exists response is_exception context_default,
        em = logged_record cls kwargs (clock w (ticks w))
               (clock w (S (ticks w))) is_exception
               (String.eqb tname "acreate") None response context_default /\
        match behaviour args (without_mona_args kwargs) with
        | Ok v =>
            response = v /\ is_exception = false /\
            (if truthy v then subscript v "id" = Ok context_default
             else context_default = VNone)
        | Raise e =>
            response = VNone /\ is_exception = true /\
            context_default = VNone /\
            is_Exception e = true /\ avoid_monitoring_exceptions cls = false
        end.
Proof.
  intros Hs out. subst out. rewrite inner_create_plain_run by exact Hs.
  destruct (behaviour args (without_mona_args kwargs)) as [v|e] eqn:Hb.
  - rewrite log_message_logger_run.
    destruct (Qlt_bool _ _);
      [destruct (truthy v) eqn:Hv;
         [destruct (subscript v "id") as [i|e'] eqn:Hi|]|].
    + eexists [_]. split; [reflexivity|]. split; [simpl; lia|].
      intros em ->%list_elem_of_singleton.
      exists v, false, i. split; [reflexivity|]. auto.
    + exists []. split; [by rewrite app_nil_r|]. split; [simpl; lia|].
      intros em Hem. by apply elem_of_nil in Hem.
    + eexists [_]. split; [reflexivity|]. split; [simpl; lia|].
      intros em ->%list_elem_of_singleton.
      exists v, false, VNone. split; [reflexivity|]. auto.
    + exists []. split; [by rewrite app_nil_r|]. split; [simpl; lia|].
      intros em Hem. by apply elem_of_nil in Hem.
  - destruct (is_Exception e) eqn:He;
      [destruct (avoid_monitoring_exceptions cls) eqn:Ha|].
    + exists []. split; [by rewrite app_nil_r|]. split; [simpl; lia|].
      intros em Hem. by apply elem_of_nil in Hem.
    + rewrite log_message_logger_run. cbn [truthy].
      destruct (Qlt_bool _ _).
      * eexists [_]. split; [reflexivity|]. split; [simpl; lia|].
        intros em ->%list_elem_of_singleton.
        exists VNone, true, VNone. done.
      * exists []. split; [by rewrite app_nil_r|]. split; [simpl; lia|].
        intros em Hem. by apply elem_of_nil in Hem.
    + exists []. split; [by rewrite app_nil_r|]. split; [simpl; lia|].
      intros em Hem. by apply elem_of_nil in Hem.
Qed.

(** ** Stream start latency (C5) *)

(** C5 (as amended).  The message [_get_logging_message] builds always has
    a [stream_start_latency] entry: the stream start time minus the start
    time when a stream start time is present, and the null value [None]
    when there is none.  Every record of a plain (not streamed) call
    carries the null value there. *)
Theorem stream_start_latency_field (api_name : string)
    (request_input : gmap string value) (start_time : Q)
    (is_exception is_async : bool) (stream_start_time : option Q)
    (response : value) analysis_getter message_cleaner
    (additional_data : value) (w : world)
    cls ename e_co tname t_co behaviour args (kwargs : gmap string value) :
  (exists message : gmap string value,
     _get_logging_message api_name request_input start_time is_exception
       is_async stream_start_time response analysis_getter message_cleaner
       additional_data w = (Ok (message_cleaner message), tick w) /\
     message !! "stream_start_latency" =
       Some (match stream_start_time with
             | Some t => VFloat (t - start_time)
             | None => VNone
             end)) /\
  (truthy (dict_get kwargs "stream" (VBool false)) = false ->
   let out := MonitoredOpenAI._inner_create cls (logger_function ename e_co)
                (target_function tname t_co behaviour) args kwargs w in
   exists new, exported (snd out) = exported w ++ new /\
     forall em, em ∈ new ->
       exists message : gmap string value,
         em_message em =
           VDict (_get_clean_message (base_class cls) message) /\
         message !! "stream_start_latency" = Some VNone).
Proof.
  split.
  - unfold _get_logging_message. rewrite bind_run. unfold time_time.
    eexists. split; [reflexivity|].
    repeat case_match; by simplify_map_eq.
  - intros Hs out.
    destruct (plain_call_exported cls ename e_co tname t_co behaviour args
                kwargs w Hs) as (new & Hnew & _ & Hall).
    exists new. split; [exact Hnew|].
    intros em Hem. destruct (Hall em Hem) as (r & ie & cd & -> & _).
    eexists. split; [reflexivity|].
    apply assembled_stream_start_latency.
Qed.

(** C5, as stated, fails: for a call without a stream start time the field
    is not omitted from the built message, it is present and holds
    [None]. *)
Lemma stream_start_latency_not_omitted :
  exists message : gmap string value,
    fst (_get_logging_message "Completion" sample_kwargs 0 false false None
           sample_response (fun _ _ => VStr "analysis") (fun m => m)
           (VDict EMPTY_DICT) (sample_world NoLoop)) = Ok message /\
    message !! "stream_start_latency" = Some VNone /\
    message !! "stream_start_latency" <> None.
Proof.
  eexists. split; [reflexivity|]. split; [|discriminate].
  vm_compute. reflexivity.
Qed.

Lemma stream_start_latency_field_witness :
  let out := MonitoredOpenAI._inner_create
               (sample_class (returns sample_response) ∅ 1)
               (logger_function "alog" true)
               (target_function "acreate" true (returns sample_response))
               [] sample_kwargs (sample_world NoLoop) in
  exists new, exported (snd out) = [] ++ new /\
    forall em, em ∈ new ->
      exists message : gmap string value,
        em_message em = VDict message /\
        message !! "stream_start_latency" = Some VNone.
Proof.
  exact (proj2 (stream_start_latency_field "Completion" ∅ 0 false false None
                  VNone (fun _ _ => VNone) (fun m => m) VNone
                  (sample_world NoLoop)
                  (sample_class (returns sample_response) ∅ 1)
                  "alog" true "acreate" true (returns sample_response)
                  [] sample_kwargs) eq_refl).
Defined.

(** ** Records of a streamed call *)

(** Establishing a stream emits a record only when the target raises. *)
Lemma stream_call_exported cls ename e_co tname t_co behaviour args kwargs
    (w : world) :
  truthy (dict_get kwargs "stream" (VBool false)) = true ->
  let out := MonitoredOpenAI._inner_create cls (logger_function ename e_co)
               (target_function tname t_co behaviour) args kwargs w in
  exists new : list emission,
    exported (snd out) = exported w ++ new /\
    length new <= 1 /\
    (forall source, behaviour args (without_mona_args kwargs) = Ok source ->
       new = [] /\
       fst out = Ok (Streaming (gathering_iterator cls
                       (logger_function ename e_co) kwargs
                       (clock w (ticks w)) (String.eqb tname "acreate")
                       source))) /\
    forall em, em ∈ new ->
      exists e,
        behaviour args (without_mona_args kwargs) = Raise e /\
        is_Exception e = true /\ avoid_monitoring_exceptions cls = false /\
        em = logged_record cls kwargs (clock w (ticks w))
               (clock w (S (ticks w))) true
               (String.eqb tname "acreate") None VNone VNone.
Proof.
  intros Hs out. subst out. rewrite inner_create_stream_run by exact Hs.
  destruct (behaviour args (without_mona_args kwargs)) as [v|e] eqn:Hb.
  - exists []. split; [by rewrite app_nil_r|]. split; [simpl; lia|].
    split; [by intros ? [= <-]|].
    intros em Hem. by apply elem_of_nil in Hem.
  - destruct (is_Exception e) eqn:He;
      [destruct (avoid_monitoring_exceptions cls) eqn:Ha|].
    + exists []. split; [by rewrite app_nil_r|]. split; [simpl; lia|].
      split; [done|]. intros em Hem. by apply elem_of_nil in Hem.
    + rewrite log_message_logger_run. cbn [truthy].
      destruct (Qlt_bool _ _).
      * eexists [_]. split; [reflexivity|]. split; [simpl; lia|].
        split; [done|].
        intros em ->%list_elem_of_singleton. by exists e.
      * exists []. split; [by rewrite app_nil_r|]. split; [simpl; lia|].
        split; [done|]. intros em Hem. by apply elem_of_nil in Hem.
    + exists []. split; [by rewrite app_nil_r|]. split; [simpl; lia|].
      split; [done|]. intros em Hem. by apply elem_of_nil in Hem.
Qed.

Lemma with_usage_truthy cls kwargs final_response :
  truthy (VDict (with_usage cls kwargs final_response)) = true.
Proof.
  unfold truthy, with_usage. rewrite bool_decide_eq_false_2; [done|].
  apply insert_non_empty.
Qed.

Lemma with_usage_id cls kwargs chunks :
  subscript (VDict (with_usage cls kwargs (synthesized_response cls chunks)))
    "id" =
  match stream_response_fields cls chunks !! "id" with
  | Some i => Ok i
  | None => Raise (Exn "KeyError" "id")
  end.
Proof.
  unfold subscript, with_usage, synthesized_response.
  rewrite !lookup_insert_ne by done. reflexivity.
Qed.

(** Exhausting the stream of a streamed call hands over every chunk and
    emits at most one record, built from the synthesized response. *)
Lemma exhaust_exported cls ename e_co kwargs start_time is_async
    (chunks : list value) (w : world) :
  let out := exhaust (gathering_iterator cls (logger_function ename e_co)
                        kwargs start_time is_async (VIter chunks)) w in
  let response :=
    VDict (with_usage cls kwargs (synthesized_response cls chunks)) in
  let w1 := after_first_chunk chunks w in
  (is_Some (stream_response_fields cls chunks !! "id") ->
   exists it', fst out = Ok (chunks, it') /\ completed it' = true /\
               original_iterator it' = VIter []) /\
  exported (snd out) =
    exported w ++
    (if Qlt_bool (rand w (draws w)) (sampling_ratio cls) then
       match stream_response_fields cls chunks !! "id" with
       | Some i =>
           [logged_record cls kwargs start_time (clock w1 (ticks w1)) false
              is_async (stream_start chunks w) response i]
       | None => []
       end
     else []).
Proof.
  intros out response w1.
  destruct (exhaust_gathering_run cls (logger_function ename e_co) kwargs
              start_time is_async chunks w) as (it' & Hc & Ho & _ & Hrun).
  subst out. rewrite Hrun, log_message_logger_run.
  rewrite with_usage_truthy, with_usage_id.
  assert (Hd : rand (after_first_chunk chunks w)
                 (draws (after_first_chunk chunks w)) = rand w (draws w))
    by (destruct chunks; reflexivity).
  rewrite Hd. fold w1. fold response.
  destruct (Qlt_bool _ _);
    destruct (stream_response_fields cls chunks !! "id") as [i|] eqn:Hi;
    cbn [fst snd exported emitted tick drew];
    (split; [intros Hsome; try (exists it'; done);
             by destruct Hsome|]);
    rewrite ?app_nil_r; try reflexivity;
    destruct chunks; reflexivity.
Qed.

(** ** Streamed calls (C2) *)



(** Scenario C of the specification: four chunks appending "a", "b", "c",
    "d" to choice 0 are gathered into "abcd". *)
Example scenario_c_text :
  foldl (add_chunk (_get_stream_delta_text_from_choice sample_wrapping)) ∅
    sample_chunks !! 0%Z = Some "abcd".
Proof. vm_compute. reflexivity. Qed.

(** ** Stream start latency is bounded by latency (C6) *)

Lemma Qminus_le_compat_l (a b c : Q) : (a <= b)%Q -> (a - c <= b - c)%Q.
Proof.
  intros H. unfold Qminus. apply Qplus_le_compat; [exact H | apply Qle_refl].
Qed.



(** ** Additional data (C8) *)

(** C8 (as amended).  For every call supplying a non-empty
    [MONA_additional_data] mapping, that mapping is, verbatim, the
    [additional_data] field of the message built for the record, and so of
    every record a plain call emits. *)
Theorem additional_data_verbatim
    cls ename e_co tname t_co behaviour args (kwargs : gmap string value)
    (data : gmap string value) (w : world) :
  kwargs !! ADDITIONAL_DATA_ARG_NAME = Some (VDict data) ->
  data <> ∅ ->
  (forall start_time is_exception is_async stream_start_time response
          (w0 : world),
     exists message : gmap string value,
       MonitoredOpenAI._get_logging_message cls kwargs start_time
         is_exception is_async stream_start_time response w0 =
         (Ok (_get_clean_message (base_class cls) message), tick w0) /\
       message !! "additional_data" = Some (VDict data)) /\
  (truthy (dict_get kwargs "stream" (VBool false)) = false ->
   let out := MonitoredOpenAI._inner_create cls (logger_function ename e_co)
                (target_function tname t_co behaviour) args kwargs w in
   exists new, exported (snd out) = exported w ++ new /\
     forall em, em ∈ new ->
       exists message : gmap string value,
         em_message em =
           VDict (_get_clean_message (base_class cls) message) /\
         message !! "additional_data" = Some (VDict data)).
Proof.
  intros Hk Hd.
  assert (Hfield : forall start_time now is_exception is_async
                          stream_start_time response,
    assembled_message cls kwargs start_time now is_exception is_async
      stream_start_time response !! "additional_data" = Some (VDict data)).
  { intros. rewrite assembled_additional_data. cbv zeta.
    unfold dict_get. rewrite Hk. cbn [truthy].
    by rewrite bool_decide_eq_false_2. }
  split.
  - intros. rewrite get_logging_message_run. eexists.
    split; [reflexivity | apply Hfield].
  - intros Hs out.
    destruct (plain_call_exported cls ename e_co tname t_co behaviour args
                kwargs w Hs) as (new & Hnew & _ & Hall).
    exists new. split; [exact Hnew|].
    intros em Hem. destruct (Hall em Hem) as (r & ie & cd & -> & _).
    eexists. split; [reflexivity | apply Hfield].
Qed.

Lemma additional_data_verbatim_witness :
  exists message : gmap string value,
    MonitoredOpenAI._get_logging_message
      (sample_class (returns sample_response) ∅ 1)
      (<[ADDITIONAL_DATA_ARG_NAME := VDict sample_data]> sample_kwargs)
      0 false true None sample_response (sample_world NoLoop) =
      (Ok message, tick (sample_world NoLoop)) /\
    message !! "additional_data" = Some (VDict sample_data).
Proof.
  assert (Hne : sample_data <> ∅) by apply insert_non_empty.
  exact (proj1 (additional_data_verbatim
                  (sample_class (returns sample_response) ∅ 1)
                  "alog" true "acreate" true (returns sample_response) []
                  (<[ADDITIONAL_DATA_ARG_NAME := VDict sample_data]>
                     sample_kwargs)
                  sample_data (sample_world NoLoop) eq_refl Hne)
           0%Q false true None sample_response (sample_world NoLoop)).
Defined.

(** C8, as stated, fails: a call supplying the empty mapping as
    [MONA_additional_data] emits a record without an [additional_data]
    field. *)
Lemma empty_additional_data_is_dropped :
  let out := MonitoredOpenAI.acreate
               (sample_class (returns sample_response) ∅ 1) []
               (<[ADDITIONAL_DATA_ARG_NAME := VDict ∅]> sample_kwargs)
               (sample_world NoLoop) in
  exists (em : emission) (message : gmap string value),
    fst out = Ok (Returned sample_response) /\
    exported (snd out) = [em] /\
    em_message em = VDict message /\
    message !! "additional_data" = None.
Proof.
  eexists _, _. split; [vm_compute; reflexivity|].
  split; [vm_compute; reflexivity|].
  split; [reflexivity|]. vm_compute. reflexivity.
Qed.

(** ** Reserved arguments (C3) *)

Lemma logged_record_routed cls kwargs start_time now is_exception is_async
    stream_start_time response context_default :
  routed cls kwargs
    (logged_record cls kwargs start_time now is_exception is_async
       stream_start_time response context_default).
Proof.
  eexists _, _. split; [reflexivity|].
  split; [apply assembled_input|].
  split; [apply without_mona_args_reserved|].
  split; [|split].
  - intros data Hk Ht. rewrite assembled_additional_data. cbv zeta.
    unfold dict_get. by rewrite Hk, Ht.
  - intros c Hk. cbn [em_context_id logged_record]. unfold dict_get.
    by rewrite Hk.
  - intros t Hk. cbn [em_export_timestamp logged_record]. unfold dict_get.
    by rewrite Hk.
Qed.

(** What [_inner_create] forwards to the target. *)
Lemma inner_create_forwarded cls ename e_co tname t_co behaviour args kwargs
    (w : world) :
  forwarded (snd (MonitoredOpenAI._inner_create cls
                    (logger_function ename e_co)
                    (target_function tname t_co behaviour) args kwargs w)) =
  forwarded w ++ [(args, without_mona_args kwargs)].
Proof.
  destruct (truthy (dict_get kwargs "stream" (VBool false))) eqn:Hs.
  - rewrite inner_create_stream_run by exact Hs.
    destruct (behaviour _ _) as [v|e]; [reflexivity|].
    destruct (is_Exception e); [|reflexivity].
    destruct (avoid_monitoring_exceptions cls); [reflexivity|].
    rewrite log_message_logger_run. cbn [truthy].
    destruct (Qlt_bool _ _); reflexivity.
  - rewrite inner_create_plain_run by exact Hs.
    destruct (behaviour _ _) as [v|e].
    + rewrite log_message_logger_run.
      destruct (Qlt_bool _ _); [|reflexivity].
      destruct (truthy v); [|reflexivity].
      destruct (subscript v "id"); reflexivity.
    + destruct (is_Exception e); [|reflexivity].
      destruct (avoid_monitoring_exceptions cls); [reflexivity|].
      rewrite log_message_logger_run. cbn [truthy].
      destruct (Qlt_bool _ _); reflexivity.
Qed.

(** Exhausting the stream calls the target no more. *)
Lemma exhaust_forwarded cls ename e_co kwargs start_time is_async
    (source : value) (w : world) :
  forwarded (snd (exhaust (gathering_iterator cls
                             (logger_function ename e_co) kwargs start_time
                             is_async source) w)) = forwarded w.
Proof.
  destruct source as [| | | | | | |chunks]; try reflexivity.
  destruct (exhaust_gathering_run cls (logger_function ename e_co) kwargs
              start_time is_async chunks w) as (it' & _ & _ & _ & Hrun).
  rewrite Hrun, log_message_logger_run.
  rewrite with_usage_truthy, with_usage_id.
  destruct (Qlt_bool _ _);
    [destruct (stream_response_fields cls chunks !! "id")|];
    destruct chunks; reflexivity.
Qed.

(** The records exhausting a stream adds are records of [logged_record]. *)
Lemma exhaust_records cls ename e_co kwargs start_time is_async
    (source : value) (w : world) :
  exists new : list emission,
    exported (snd (exhaust (gathering_iterator cls
                              (logger_function ename e_co) kwargs start_time
                              is_async source) w)) = exported w ++ new /\
    length new <= 1 /\
    forall em, em ∈ new ->
      exists chunks context_id now stream_start,
        source = VIter chunks /\
        stream_response_fields cls chunks !! "id" = Some context_id /\
        em = logged_record cls kwargs start_time now false is_async
               stream_start
               (VDict (with_usage cls kwargs
                         (synthesized_response cls chunks)))
               context_id.
Proof.
  assert (Hnone : forall w0 : world,
    exists new : list emission, exported w0 = exported w0 ++ new /\
      length new <= 1 /\
      forall em, em ∈ new ->
        exists chunks context_id now stream_start,
          source = VIter chunks /\
          stream_response_fields cls chunks !! "id" = Some context_id /\
          em = logged_record cls kwargs start_time now false is_async
                 stream_start
                 (VDict (with_usage cls kwargs
                           (synthesized_response cls chunks)))
                 context_id).
  { intros w0. exists []. split; [by rewrite app_nil_r|].
    split; [simpl; lia|]. intros em Hem. by apply elem_of_nil in Hem. }
  destruct source as [| | | | | | |chunks]; try apply (Hnone w).
  destruct (exhaust_exported cls ename e_co kwargs start_time is_async
              chunks w) as [_ Hex].
  rewrite Hex.
  destruct (Qlt_bool _ _);
    [destruct (stream_response_fields cls chunks !! "id") as [i|] eqn:Hi|];
    try (exists []; split; [reflexivity|]; split; [simpl; lia|];
         intros em Hem; by apply elem_of_nil in Hem).
  eexists [_]. split; [reflexivity|]. split; [simpl; lia|].
  intros em ->%list_elem_of_singleton.
  by eexists chunks, i, _, _.
Qed.

(** When [_inner_create] hands back an iterator, it is the gathering
    iterator over what the target returned. *)
Lemma inner_create_streaming_inv cls ename e_co tname t_co behaviour args
    kwargs (w : world) (it : ResponseGatheringIterator) :
  fst (MonitoredOpenAI._inner_create cls (logger_function ename e_co)
         (target_function tname t_co behaviour) args kwargs w) =
    Ok (Streaming it) ->
  exists source,
    truthy (dict_get kwargs "stream" (VBool false)) = true /\
    behaviour args (without_mona_args kwargs) = Ok source /\
    it = gathering_iterator cls (logger_function ename e_co) kwargs
           (clock w (ticks w)) (String.eqb tname "acreate") source.
Proof.
  destruct (truthy (dict_get kwargs "stream" (VBool false))) eqn:Hs.
  - rewrite inner_create_stream_run by exact Hs.
    destruct (behaviour _ _) as [v|e].
    + intros [= <-]. by exists v.
    + destruct (is_Exception e); [|discriminate].
      destruct (avoid_monitoring_exceptions cls); [discriminate|].
      rewrite log_message_logger_run. cbn [truthy].
      destruct (Qlt_bool _ _); discriminate.
  - rewrite inner_create_plain_run by exact Hs.
    destruct (behaviour _ _) as [v|e].
    + rewrite log_message_logger_run.
      destruct (Qlt_bool _ _); [|discriminate].
      destruct (truthy v); [|discriminate].
      destruct (subscript v "id"); discriminate.
    + destruct (is_Exception e); [|discriminate].
      destruct (avoid_monitoring_exceptions cls); [discriminate|].
      rewrite log_message_logger_run. cbn [truthy].
      destruct (Qlt_bool _ _); discriminate.
Qed.

(** The records a call emits before it returns are records of
    [logged_record]. *)
Lemma inner_create_records cls ename e_co tname t_co behaviour args kwargs
    (w : world) :
  exists new : list emission,
    exported (snd (MonitoredOpenAI._inner_create cls
                     (logger_function ename e_co)
                     (target_function tname t_co behaviour) args kwargs w)) =
      exported w ++ new /\
    length new <= 1 /\
    forall em, em ∈ new ->
      exists now is_exception response context_default,
        em = logged_record cls kwargs (clock w (ticks w)) now is_exception
               (String.eqb tname "acreate") None response context_default.
Proof.
  destruct (truthy (dict_get kwargs "stream" (VBool false))) eqn:Hs.
  - destruct (stream_call_exported cls ename e_co tname t_co behaviour args
                kwargs w Hs) as (new & Hnew & Hlen & _ & Hall).
    exists new. split; [exact Hnew|]. split; [exact Hlen|].
    intros em Hem. destruct (Hall em Hem) as (e & _ & _ & _ & ->).
    by eexists _, _, _, _.
  - destruct (plain_call_exported cls ename e_co tname t_co behaviour args
                kwargs w Hs) as (new & Hnew & Hlen & Hall).
    exists new. split; [exact Hnew|]. split; [exact Hlen|].
    intros em Hem. destruct (Hall em Hem) as (r & ie & cd & -> & _).
    by eexists _, _, _, _.
Qed.


(** ** Default context id and export timestamp (C10) *)


(** ** The sampling gate (C7) *)

Lemma gate_open (draw ratio : Q) :
  (ratio == 1)%Q -> (draw < 1)%Q -> Qlt_bool draw ratio = true.
Proof. intros Hr Hd. apply Qlt_bool_iff. by rewrite Hr. Qed.

Lemma gate_shut (draw ratio : Q) :
  (ratio == 0)%Q -> (0 <= draw)%Q -> Qlt_bool draw ratio = false.
Proof. intros Hr Hd. apply Qlt_bool_false_iff. by rewrite Hr. Qed.



(** ** One record per attempt (C4) *)

Lemma logged_record_kind cls kwargs start_time now is_exception is_async
    stream_start_time response context_default :
  (is_exception = true -> truthy response = false) ->
  record_kind cls
    (logged_record cls kwargs start_time now is_exception is_async
       stream_start_time response context_default)
    is_exception.
Proof.
  intros Hr. eexists. split; [reflexivity|].
  split; [apply assembled_is_exception|].
  intros He. rewrite assembled_response. by rewrite (Hr He).
Qed.




(** ** Exceptions reach the caller (C1) *)

(** C1 (the code departs from it).  The blocking [create] called outside a
    running scheduler, with a target that raises [RuntimeError("boom")]:
    one exception record is emitted, but the caller does not get the
    target's exception back; [run_in_an_event_loop] takes it for a failure
    of [asyncio.run], retries on the coroutine object it already awaited,
    and raises that retry's [RuntimeError].  The suspending [acreate], on
    the same input, re-raises the target's exception unchanged. *)
Theorem blocking_create_replaces_RuntimeError :
  let cls := sample_class (raises "RuntimeError" "boom") ∅ 1 in
  let out := MonitoredOpenAI.create cls [] sample_kwargs
               (sample_world NoLoop) in
  let aout := MonitoredOpenAI.acreate cls [] sample_kwargs
                (sample_world NoLoop) in
  fst out =
    Raise (Exn "RuntimeError" "cannot reuse already awaited coroutine") /\
  fst out <> Raise (Exn "RuntimeError" "boom") /\
  (exists em, exported (snd out) = [em] /\ record_kind cls em true) /\
  fst aout = Raise (Exn "RuntimeError" "boom") /\
  (exists em, exported (snd aout) = [em] /\ record_kind cls em true).
Proof.
  cbv zeta.
  assert (Hout : fst (MonitoredOpenAI.create
                        (sample_class (raises "RuntimeError" "boom") ∅ 1) []
                        sample_kwargs (sample_world NoLoop)) =
    Raise (Exn "RuntimeError" "cannot reuse already awaited coroutine"))
    by (vm_compute; reflexivity).
  split; [exact Hout|]. split; [rewrite Hout; discriminate|].
  split; [|split].
  - eexists. split; [vm_compute; reflexivity|].
    eexists. split; [reflexivity|].
    split; [vm_compute; reflexivity|]. intros _. vm_compute. reflexivity.
  - vm_compute. reflexivity.
  - eexists. split; [vm_compute; reflexivity|].
    eexists. split; [reflexivity|].
    split; [vm_compute; reflexivity|]. intros _. vm_compute. reflexivity.
Qed.

(** [_inner_create] neither looks at the scheduler nor touches it. *)
Lemma inner_create_oblivious cls ename e_co tname t_co behaviour args kwargs :
  scheduler_oblivious
    (MonitoredOpenAI._inner_create cls (logger_function ename e_co)
       (target_function tname t_co behaviour) args kwargs).
Proof.
  intros w l n ev.
  destruct (truthy (dict_get kwargs "stream" (VBool false))) eqn:Hs.
  - rewrite !inner_create_stream_run by exact Hs.
    cbn [clock ticks with_sched].
    destruct (behaviour _ _) as [v|e]; [reflexivity|].
    destruct (is_Exception e); [|reflexivity].
    destruct (avoid_monitoring_exceptions cls); [reflexivity|].
    rewrite !log_message_logger_run.
    cbn [rand draws clock ticks called tick with_sched truthy].
    destruct (Qlt_bool _ _); reflexivity.
  - rewrite !inner_create_plain_run by exact Hs.
    cbn [clock ticks with_sched].
    destruct (behaviour _ _) as [v|e].
    + rewrite !log_message_logger_run.
      cbn [rand draws clock ticks called tick with_sched].
      destruct (Qlt_bool _ _); [|reflexivity].
      destruct (truthy v); [|reflexivity].
      destruct (subscript v "id"); reflexivity.
    + destruct (is_Exception e); [|reflexivity].
      destruct (avoid_monitoring_exceptions cls); [reflexivity|].
      rewrite !log_message_logger_run.
      cbn [rand draws clock ticks called tick with_sched truthy].
      destruct (Qlt_bool _ _); reflexivity.
Qed.

Lemma with_sched_same (w : world) :
  with_sched (loop w) (nested w) (sched w) w = w.
Proof. by destruct w. Qed.

(** What the blocking [create] does with an exception of the target, from
    a thread without the reentrancy patch: any exception other than a
    [RuntimeError] reaches the caller unchanged, and so does a
    [RuntimeError] inside a running scheduler; outside a running scheduler
    a [RuntimeError] of the target is replaced. *)
Lemma create_on_exception cls args kwargs (w : world) (e : exn) :
  nested w = false ->
  openai_create cls args (without_mona_args kwargs) = Raise e ->
  fst (MonitoredOpenAI.create cls args kwargs w) =
  if is_RuntimeError e && negb (bool_decide (loop w = LoopRunning))
  then Raise (Exn "RuntimeError" "cannot reuse already awaited coroutine")
  else Raise e.
Proof.
  intros Hn Hb. unfold MonitoredOpenAI.create, MonitoredOpenAI.logger_log.
  set (c := MonitoredOpenAI._inner_create cls _ _ args kwargs).
  assert (Hc : scheduler_oblivious c) by apply inner_create_oblivious.
  assert (Hraise : fst (c w) = Raise e).
  { unfold c.
    destruct (truthy (dict_get kwargs "stream" (VBool false))) eqn:Hs;
      [rewrite inner_create_stream_run by exact Hs
      |rewrite inner_create_plain_run by exact Hs];
      rewrite Hb; (destruct (is_Exception e); [|reflexivity]);
      (destruct (avoid_monitoring_exceptions cls); [reflexivity|]);
      rewrite log_message_logger_run; cbn [truthy];
      destruct (Qlt_bool _ _); reflexivity. }
  case_bool_decide as Hl.
  - rewrite run_in_an_event_loop_running by assumption. cbv zeta.
    rewrite (Hc w LoopRunning true (sched w ++ [NestApplied; NestedRun])).
    rewrite andb_false_r. exact Hraise.
  - rewrite run_in_an_event_loop_not_running by assumption. cbv zeta.
    rewrite (Hc w LoopRunning false (sched w ++ [FreshLoopRun])).
    cbn [fst snd]. rewrite Hraise, andb_true_r.
    cbn [raises_RuntimeError]. by destruct (is_RuntimeError e).
Qed.

(** The suspending [acreate] re-raises whatever the target raises. *)
Lemma acreate_on_exception cls args kwargs (w : world) (e : exn) :
  openai_acreate cls args (without_mona_args kwargs) = Raise e ->
  fst (MonitoredOpenAI.acreate cls args kwargs w) = Raise e.
Proof.
  intros Hb. unfold MonitoredOpenAI.acreate, MonitoredOpenAI.logger_alog.
  destruct (truthy (dict_get kwargs "stream" (VBool false))) eqn:Hs;
    [rewrite inner_create_stream_run by exact Hs
    |rewrite inner_create_plain_run by exact Hs];
    rewrite Hb; (destruct (is_Exception e); [|reflexivity]);
    (destruct (avoid_monitoring_exceptions cls); [reflexivity|]);
    rewrite log_message_logger_run; cbn [truthy];
    destruct (Qlt_bool _ _); reflexivity.
Qed.

(** * Further properties of the code *)

(** ** Arguments that are not reserved *)

(** X1.  Every keyword argument whose name does not start with the reserved
    prefix reaches the target with its value, together with the positional
    arguments, and stands with that value in the [input] of the message of
    every record the call emits before it returns. *)
Theorem unreserved_arguments_are_preserved
    cls ename e_co tname t_co behaviour args (kwargs : gmap string value)
    (w : world) :
  let out := MonitoredOpenAI._inner_create cls (logger_function ename e_co)
               (target_function tname t_co behaviour) args kwargs w in
  (exists forwarded_kwargs : gmap string value,
     forwarded (snd out) = forwarded w ++ [(args, forwarded_kwargs)] /\
     forall key, String.prefix MONA_ARGS_PREFIX key = false ->
                 forwarded_kwargs !! key = kwargs !! key) /\
  (exists new, exported (snd out) = exported w ++ new /\
     forall em, em ∈ new ->
       exists message input : gmap string value,
         em_message em =
           VDict (_get_clean_message (base_class cls) message) /\
         message !! "input" = Some (VDict input) /\
         forall key, String.prefix MONA_ARGS_PREFIX key = false ->
                     input !! key = kwargs !! key).
Proof.
  intros out. split.
  - exists (without_mona_args kwargs).
    split; [apply inner_create_forwarded | apply without_mona_args_other].
  - destruct (inner_create_records cls ename e_co tname t_co behaviour args
                kwargs w) as (new & Hnew & _ & Hall).
    exists new. split; [exact Hnew|].
    intros em Hem. destruct (Hall em Hem) as (? & ? & ? & ? & ->).
    eexists _, _. split; [reflexivity|].
    split; [apply assembled_input | apply without_mona_args_other].
Qed.

(** ** The keys of a logging message *)

(** X2.  The message [_get_logging_message] hands to the message cleaner
    has the six keys [input], [latency], [stream_start_latency],
    [is_exception], [api_name] and [is_async], the key [additional_data]
    exactly when the additional data is truthy, the keys [response] and
    [analysis] exactly when the response is truthy, and no other key. *)
Theorem logging_message_keys (api_name : string)
    (request_input : gmap string value) (start_time : Q)
    (is_exception is_async : bool) (stream_start_time : option Q)
    (response : value) analysis_getter message_cleaner
    (additional_data : value) (w : world) :
  exists message : gmap string value,
    _get_logging_message api_name request_input start_time is_exception
      is_async stream_start_time response analysis_getter message_cleaner
      additional_data w = (Ok (message_cleaner message), tick w) /\
    dom message =
      ({[ "input"; "latency"; "stream_start_latency"; "is_exception";
          "api_name"; "is_async" ]} : gset string)
      ∪ (if truthy additional_data then {[ "additional_data" ]} else ∅)
      ∪ (if truthy response then {[ "response"; "analysis" ]} else ∅).
Proof.
  unfold _get_logging_message. rewrite bind_run. unfold time_time.
  eexists. split; [reflexivity|].
  destruct (truthy additional_data), (truthy response);
    rewrite ?dom_insert_L, dom_empty_L; set_solver.
Qed.

(** ** Latency and the asynchrony flag *)

Lemma assembled_is_async cls kwargs start_time now is_exception is_async
    stream_start_time response :
  assembled_message cls kwargs start_time now is_exception is_async
    stream_start_time response !! "is_async" = Some (VBool is_async).
Proof.
  unfold assembled_message. repeat case_match; by simplify_map_eq.
Qed.

Lemma assembled_api_name cls kwargs start_time now is_exception is_async
    stream_start_time response :
  assembled_message cls kwargs start_time now is_exception is_async
    stream_start_time response !! "api_name" =
  Some (VStr (openai_class_name cls)).
Proof.
  unfold assembled_message. repeat case_match; by simplify_map_eq.
Qed.

Lemma assembled_analysis cls kwargs start_time now is_exception is_async
    stream_start_time response :
  assembled_message cls kwargs start_time now is_exception is_async
    stream_start_time response !! "analysis" =
  if truthy response
  then Some (_get_full_analysis (base_class cls)
               (without_mona_args kwargs) response)
  else None.
Proof.
  unfold assembled_message. repeat case_match; by simplify_map_eq.
Qed.

(** The records a call emits before it returns are built at the second
    clock reading of the call. *)
Lemma inner_create_records_now cls ename e_co tname t_co behaviour args
    kwargs (w : world) :
  exists new : list emission,
    exported (snd (MonitoredOpenAI._inner_create cls
                     (logger_function ename e_co)
                     (target_function tname t_co behaviour) args kwargs w)) =
      exported w ++ new /\
    forall em, em ∈ new ->
      exists is_exception response context_default,
        em = logged_record cls kwargs (clock w (ticks w))
               (clock w (S (ticks w))) is_exception
               (String.eqb tname "acreate") None response context_default.
Proof.
  destruct (truthy (dict_get kwargs "stream" (VBool false))) eqn:Hs.
  - destruct (stream_call_exported cls ename e_co tname t_co behaviour args
                kwargs w Hs) as (new & Hnew & _ & _ & Hall).
    exists new. split; [exact Hnew|].
    intros em Hem. destruct (Hall em Hem) as (e & _ & _ & _ & ->).
    by eexists _, _, _.
  - destruct (plain_call_exported cls ename e_co tname t_co behaviour args
                kwargs w Hs) as (new & Hnew & _ & Hall).
    exists new. split; [exact Hnew|].
    intros em Hem. destruct (Hall em Hem) as (r & ie & cd & -> & _).
    by eexists _, _, _.
Qed.

(** X3.  The [latency] of every record a call emits before it returns is
    the clock reading taken for the record minus the reading taken when the
    call started, the two being consecutive readings of the call; it is not
    negative when the clock did not run backwards in between. *)
Theorem latency_is_elapsed_time
    cls ename e_co tname t_co behaviour args (kwargs : gmap string value)
    (w : world) :
  let out := MonitoredOpenAI._inner_create cls (logger_function ename e_co)
               (target_function tname t_co behaviour) args kwargs w in
  exists new, exported (snd out) = exported w ++ new /\
    forall em, em ∈ new ->
      exists message : gmap string value,
        em_message em =
          VDict (_get_clean_message (base_class cls) message) /\
        message !! "latency" =
          Some (VFloat (clock w (S (ticks w)) - clock w (ticks w))) /\
        ((clock w (ticks w) <= clock w (S (ticks w)))%Q ->
         (0 <= clock w (S (ticks w)) - clock w (ticks w))%Q).
Proof.
  intros out.
  destruct (inner_create_records_now cls ename e_co tname t_co behaviour
              args kwargs w) as (new & Hnew & Hall).
  exists new. split; [exact Hnew|].
  intros em Hem. destruct (Hall em Hem) as (? & ? & ? & ->).
  eexists. split; [reflexivity|]. split; [apply assembled_latency|].
  intros Hle. by apply Qle_minus_iff in Hle.
Qed.

(** ** The blocking entry point runs the call once *)

(** Whatever [run_in_an_event_loop] does with the scheduler, the other
    effects of the task happen once. *)
Lemma run_in_an_event_loop_effects {A : Type} (c : M A) (w : world) :
  scheduler_oblivious c -> nested w = false ->
  exists l n ev,
    snd (run_in_an_event_loop c w) = with_sched l n ev (snd (c w)).
Proof.
  intros Hc Hn. destruct (decide (loop w = LoopRunning)) as [Hl|Hl].
  - rewrite run_in_an_event_loop_running by assumption. cbv zeta.
    rewrite (Hc w LoopRunning true (sched w ++ [NestApplied; NestedRun])).
    cbn [fst snd]. by eexists _, _, _.
  - rewrite run_in_an_event_loop_not_running by assumption. cbv zeta.
    rewrite (Hc w LoopRunning false (sched w ++ [FreshLoopRun])).
    cbn [fst snd]. destruct (raises_RuntimeError _); by eexists _, _, _.
Qed.

Lemma run_in_an_event_loop_result {A : Type} (c : M A) (w : world) :
  scheduler_oblivious c -> nested w = false ->
  fst (run_in_an_event_loop c w) =
  if raises_RuntimeError (fst (c w))
     && negb (bool_decide (loop w = LoopRunning))
  then Raise (Exn "RuntimeError" "cannot reuse already awaited coroutine")
  else fst (c w).
Proof.
  intros Hc Hn. case_bool_decide as Hl.
  - rewrite run_in_an_event_loop_running by assumption. cbv zeta.
    rewrite (Hc w LoopRunning true (sched w ++ [NestApplied; NestedRun])).
    by rewrite andb_false_r.
  - rewrite run_in_an_event_loop_not_running by assumption. cbv zeta.
    rewrite (Hc w LoopRunning false (sched w ++ [FreshLoopRun])).
    cbn [fst snd]. rewrite andb_true_r.
    by destruct (raises_RuntimeError _).
Qed.

(** The effects of the blocking [create] are those of one run of its
    coroutine. *)
Lemma create_effects cls args (kwargs : gmap string value) (w : world) :
  nested w = false ->
  exists l n ev,
    snd (MonitoredOpenAI.create cls args kwargs w) =
    with_sched l n ev
      (snd (MonitoredOpenAI._inner_create cls (logger_function "log" false)
              (target_function "create" false (openai_create cls))
              args kwargs w)).
Proof.
  intros Hn. unfold MonitoredOpenAI.create, MonitoredOpenAI.logger_log.
  apply run_in_an_event_loop_effects; [apply inner_create_oblivious|exact Hn].
Qed.











(** ** Responses without an id, and empty responses *)

(** X9.  When the sampling gate lets the record through, a plain call
    whose target returns a non-empty mapping without an [id] key does not
    return that response: evaluating the default context id raises
    [KeyError], also when the caller supplied [MONA_context_id]; no record
    is emitted. *)
Theorem response_without_id_raises_KeyError
    cls ename e_co tname t_co behaviour args (kwargs : gmap string value)
    (w : world) (response : gmap string value) :
  truthy (dict_get kwargs "stream" (VBool false)) = false ->
  behaviour args (without_mona_args kwargs) = Ok (VDict response) ->
  response <> ∅ -> response !! "id" = None ->
  Qlt_bool (rand w (draws w)) (sampling_ratio cls) = true ->
  let out := MonitoredOpenAI._inner_create cls (logger_function ename e_co)
               (target_function tname t_co behaviour) args kwargs w in
  fst out = Raise (Exn "KeyError" "id") /\
  exported (snd out) = exported w.
Proof.
  intros Hs Hb Hne Hid Hdraw out. subst out.
  rewrite inner_create_plain_run, Hb by exact Hs.
  rewrite log_message_logger_run. cbn [rand draws called tick].
  rewrite Hdraw. cbn [truthy subscript].
  rewrite bool_decide_eq_false_2 by exact Hne. cbn [negb].
  rewrite Hid. done.
Qed.

Lemma response_without_id_raises_KeyError_witness :
  let response : gmap string value := <["choices" := VList []]> ∅ in
  let out := MonitoredOpenAI._inner_create
               (sample_class (returns (VDict response)) ∅ 1)
               (logger_function "alog" true)
               (target_function "acreate" true (returns (VDict response)))
               []
               (<[CONTEXT_ID_ARG_NAME := VStr "ctx"]> sample_kwargs)
               (sample_world NoLoop) in
  fst out = Raise (Exn "KeyError" "id") /\ exported (snd out) = [].
Proof.
  assert (Hne : (<["choices" := VList []]> ∅ : gmap string value) <> ∅)
    by apply insert_non_empty.
  exact (response_without_id_raises_KeyError
           (sample_class
              (returns (VDict (<["choices" := VList []]> ∅))) ∅ 1)
           "alog" true "acreate" true
           (returns (VDict (<["choices" := VList []]> ∅))) []
           (<[CONTEXT_ID_ARG_NAME := VStr "ctx"]> sample_kwargs)
           (sample_world NoLoop) (<["choices" := VList []]> ∅)
           eq_refl eq_refl Hne eq_refl eq_refl).
Defined.

(** X10.  A plain call whose target returns a falsy response (an empty
    mapping, [None]) returns that response; the record emitted for it,
    when the gate lets it through, is a success record without [response]
    and [analysis] fields, and its context id is the caller's
    [MONA_context_id], or [None]. *)
Theorem falsy_response_record
    cls ename e_co tname t_co behaviour args (kwargs : gmap string value)
    (w : world) (response : value) :
  truthy (dict_get kwargs "stream" (VBool false)) = false ->
  behaviour args (without_mona_args kwargs) = Ok response ->
  truthy response = false ->
  let out := MonitoredOpenAI._inner_create cls (logger_function ename e_co)
               (target_function tname t_co behaviour) args kwargs w in
  fst out = Ok (Returned response) /\
  exists new, exported (snd out) = exported w ++ new /\
    length new <= 1 /\
    forall em, em ∈ new ->
      em_context_id em = dict_get kwargs CONTEXT_ID_ARG_NAME VNone /\
      exists message : gmap string value,
        em_message em =
          VDict (_get_clean_message (base_class cls) message) /\
        message !! "is_exception" = Some (VBool false) /\
        message !! "response" = None /\
        message !! "analysis" = None.
Proof.
  intros Hs Hb Hr out. subst out.
  rewrite inner_create_plain_run, Hb by exact Hs.
  rewrite log_message_logger_run, Hr.
  destruct (Qlt_bool _ _).
  - split; [reflexivity|]. eexists [_]. split; [reflexivity|].
    split; [simpl; lia|].
    intros em ->%list_elem_of_singleton. split; [reflexivity|].
    eexists. split; [reflexivity|].
    split; [apply assembled_is_exception|].
    split; [rewrite assembled_response | rewrite assembled_analysis];
      by rewrite Hr.
  - split; [reflexivity|]. exists []. split; [by rewrite app_nil_r|].
    split; [simpl; lia|]. intros em Hem. by apply elem_of_nil in Hem.
Qed.

Lemma falsy_response_record_witness :
  let out := MonitoredOpenAI._inner_create
               (sample_class (returns (VDict ∅)) ∅ 1)
               (logger_function "alog" true)
               (target_function "acreate" true (returns (VDict ∅)))
               [] sample_kwargs (sample_world NoLoop) in
  fst out = Ok (Returned (VDict ∅)) /\
  exists new, exported (snd out) = [] ++ new /\ length new <= 1.
Proof.
  assert (Hfalsy : truthy (VDict ∅) = false) by (vm_compute; reflexivity).
  destruct (falsy_response_record
              (sample_class (returns (VDict ∅)) ∅ 1)
              "alog" true "acreate" true (returns (VDict ∅))
              [] sample_kwargs (sample_world NoLoop) (VDict ∅)
              eq_refl eq_refl Hfalsy) as (Hres & new & Hnew & Hlen & _).
  split; [exact Hres|]. by exists new.
Defined.

(** X11.  The success record of a plain call whose target returns a truthy
    response with an [id] holds that response under [response] and, under
    [analysis], what the endpoint's analysis getter computes from the
    keyword arguments without the reserved ones and the response; the
    caller gets the response itself, whether or not the gate lets the
    record through. *)
Theorem success_record_contents
    cls ename e_co tname t_co behaviour args (kwargs : gmap string value)
    (w : world) (response context_id : value) :
  truthy (dict_get kwargs "stream" (VBool false)) = false ->
  behaviour args (without_mona_args kwargs) = Ok response ->
  truthy response = true ->
  subscript response "id" = Ok context_id ->
  let out := MonitoredOpenAI._inner_create cls (logger_function ename e_co)
               (target_function tname t_co behaviour) args kwargs w in
  fst out = Ok (Returned response) /\
  exists new, exported (snd out) = exported w ++ new /\
    length new = (if Qlt_bool (rand w (draws w)) (sampling_ratio cls)
                  then 1 else 0) /\
    forall em, em ∈ new ->
      exists message : gmap string value,
        em_message em =
          VDict (_get_clean_message (base_class cls) message) /\
        message !! "is_exception" = Some (VBool false) /\
        message !! "response" = Some response /\
        message !! "analysis" =
          Some (_get_full_analysis (base_class cls)
                  (without_mona_args kwargs) response).
Proof.
  intros Hs Hb Hr Hid out. subst out.
  rewrite inner_create_plain_run, Hb by exact Hs.
  rewrite log_message_logger_run, Hr, Hid. cbn [rand draws called tick].
  destruct (Qlt_bool _ _).
  - split; [reflexivity|]. eexists [_]. split; [reflexivity|].
    split; [reflexivity|].
    intros em ->%list_elem_of_singleton.
    eexists. split; [reflexivity|].
    split; [apply assembled_is_exception|].
    split; [rewrite assembled_response | rewrite assembled_analysis];
      by rewrite Hr.
  - split; [reflexivity|]. exists []. split; [by rewrite app_nil_r|].
    split; [reflexivity|]. intros em Hem. by apply elem_of_nil in Hem.
Qed.

Lemma success_record_contents_witness :
  let out := MonitoredOpenAI._inner_create
               (sample_class (returns sample_response) ∅ 1)
               (logger_function "alog" true)
               (target_function "acreate" true (returns sample_response))
               [] sample_kwargs (sample_world NoLoop) in
  fst out = Ok (Returned sample_response) /\
  exists new, exported (snd out) = [] ++ new /\ length new = 1.
Proof.
  destruct (success_record_contents
              (sample_class (returns sample_response) ∅ 1)
              "alog" true "acreate" true (returns sample_response)
              [] sample_kwargs (sample_world NoLoop) sample_response
              (VStr "r1") eq_refl eq_refl eq_refl eq_refl)
    as (Hres & new & Hnew & Hlen & _).
  split; [exact Hres|]. by exists new.
Defined.

(** ** The usage of a streamed response *)

(** X12.  The response [_stream_done_callback] logs is the final response
    it is given with its [usage] entry set to what the usage computer
    returns for the model, the prompt texts and the response texts: an
    entry of that name in the final response is overridden, and every
    other entry is kept. *)
Theorem stream_usage_overrides cls ename e_co (kwargs : gmap string value)
    (start_time : Q) (is_async : bool)
    (final_response : gmap string value) (stream_start_time : option Q)
    (context_id : value) (w : world) :
  final_response !! "id" = Some context_id ->
  Qlt_bool (rand w (draws w)) (sampling_ratio cls) = true ->
  let out := MonitoredOpenAI._stream_done_callback cls
               (logger_function ename e_co) kwargs start_time is_async
               final_response stream_start_time w in
  exists (em : emission) (message logged : gmap string value),
    exported (snd out) = exported w ++ [em] /\
    em_message em = VDict (_get_clean_message (base_class cls) message) /\
    em_context_id em = dict_get kwargs CONTEXT_ID_ARG_NAME context_id /\
    message !! "response" = Some (VDict logged) /\
    logged !! "usage" =
      Some (get_usage cls (get_model_param cls kwargs)
              (_get_all_prompt_texts (base_class cls) kwargs)
              (_get_all_response_texts (base_class cls) final_response)) /\
    forall key, key <> "usage" -> logged !! key = final_response !! key.
Proof.
  intros Hid Hdraw out. subst out.
  rewrite stream_done_callback_run, log_message_logger_run, Hdraw.
  rewrite with_usage_truthy.
  assert (Hsub : subscript (VDict (with_usage cls kwargs final_response))
                   "id" = Ok context_id).
  { unfold subscript, with_usage. by rewrite lookup_insert_ne, Hid. }
  rewrite Hsub. eexists _, _, (with_usage cls kwargs final_response).
  split; [reflexivity|]. split; [reflexivity|]. split; [reflexivity|].
  split; [by rewrite assembled_response, with_usage_truthy|].
  split; [unfold with_usage; by rewrite lookup_insert_eq|].
  intros key Hkey. unfold with_usage. by rewrite lookup_insert_ne.
Qed.

Lemma stream_usage_overrides_witness :
  let final : gmap string value :=
    <["usage" := VStr "stale"]> (<["id" := VStr "r1"]> ∅) in
  let out := MonitoredOpenAI._stream_done_callback
               (sample_class (returns VNone) ∅ 1)
               (logger_function "alog" true) sample_kwargs 0 true final
               (Some 1%Q) (sample_world NoLoop) in
  exists (em : emission) (message logged : gmap string value),
    exported (snd out) = [] ++ [em] /\
    em_message em = VDict message /\
    message !! "response" = Some (VDict logged) /\
    logged !! "usage" = Some (VDict (<["total_tokens" := VInt 0]> ∅)).
Proof.
  assert (Hid : (<["usage" := VStr "stale"]> (<["id" := VStr "r1"]> ∅)
                  : gmap string value) !! "id" = Some (VStr "r1"))
    by (vm_compute; reflexivity).
  destruct (stream_usage_overrides (sample_class (returns VNone) ∅ 1)
              "alog" true sample_kwargs 0 true
              (<["usage" := VStr "stale"]> (<["id" := VStr "r1"]> ∅))
              (Some 1%Q) (VStr "r1") (sample_world NoLoop)
              Hid eq_refl)
    as (em & message & logged & Hex & Hem & _ & Hr & Hu & _).
  exists em, message, logged.
  split; [exact Hex|]. split; [exact Hem|]. split; [exact Hr | exact Hu].
Defined.

(** ** The REST client *)

Lemma get_logging_message_built api_name request_input start_time
    is_exception is_async stream_start_time response analysis_getter
    message_cleaner additional_data (w : world) :
  _get_logging_message api_name request_input start_time is_exception
    is_async stream_start_time response analysis_getter message_cleaner
    additional_data w =
  (Ok (message_cleaner
         (built_message api_name request_input start_time
            (clock w (ticks w)) is_exception is_async stream_start_time
            response analysis_getter additional_data)),
   tick w).
Proof. reflexivity. Qed.

Section built.
Variables (api_name : string) (request_input : gmap string value).
Variables (start_time now : Q) (is_exception is_async : bool).
Variables (stream_start_time : option Q) (response : value).
Variable analysis_getter : gmap string value -> value -> value.
Variable additional_data : value.

Lemma built_input :
  built_message api_name request_input start_time now is_exception is_async
    stream_start_time response analysis_getter additional_data !! "input" =
  Some (VDict request_input).
Proof. unfold built_message. repeat case_match; by simplify_map_eq. Qed.

Lemma built_latency :
  built_message api_name request_input start_time now is_exception is_async
    stream_start_time response analysis_getter additional_data !! "latency" =
  Some (VFloat (now - start_time)).
Proof. unfold built_message. repeat case_match; by simplify_map_eq. Qed.

Lemma built_stream_start_latency :
  built_message api_name request_input start_time now is_exception is_async
    stream_start_time response analysis_getter additional_data
    !! "stream_start_latency" =
  Some (match stream_start_time with
        | Some t => VFloat (t - start_time)
        | None => VNone
        end).
Proof. unfold built_message. repeat case_match; by simplify_map_eq. Qed.

Lemma built_is_exception :
  built_message api_name request_input start_time now is_exception is_async
    stream_start_time response analysis_getter additional_data
    !! "is_exception" = Some (VBool is_exception).
Proof. unfold built_message. repeat case_match; by simplify_map_eq. Qed.

Lemma built_is_async :
  built_message api_name request_input start_time now is_exception is_async
    stream_start_time response analysis_getter additional_data
    !! "is_async" = Some (VBool is_async).
Proof. unfold built_message. repeat case_match; by simplify_map_eq. Qed.

Lemma built_additional_data :
  built_message api_name request_input start_time now is_exception is_async
    stream_start_time response analysis_getter additional_data
    !! "additional_data" =
  if truthy additional_data then Some additional_data else None.
Proof. unfold built_message. repeat case_match; by simplify_map_eq. Qed.

Lemma built_response :
  built_message api_name request_input start_time now is_exception is_async
    stream_start_time response analysis_getter additional_data
    !! "response" = if truthy response then Some response else None.
Proof. unfold built_message. repeat case_match; by simplify_map_eq. Qed.

Lemma built_analysis :
  built_message api_name request_input start_time now is_exception is_async
    stream_start_time response analysis_getter additional_data
    !! "analysis" =
  if truthy response then Some (analysis_getter request_input response)
  else None.
Proof. unfold built_message. repeat case_match; by simplify_map_eq. Qed.

End built.

(** What a callback of [log_request] does, for request-level additional
    data [data] (already defaulted) and the triple it passes on. *)
Lemma rest_log_message_run rm request_dict data context_id export_timestamp
    start_time is_exception more response (w : world) :
  add_conditional_sampling
    (RestClient._inner_log_message rm (logger_function "log" false)
       request_dict data context_id export_timestamp start_time)
    (rest_sampling_ratio rm) (is_exception, more, response) w =
  if Qlt_bool (rand w (draws w)) (rest_sampling_ratio rm) then
    match dict_unpack2 data more with
    | Ok merged =>
        (Ok VNone,
         emitted (rest_record rm request_dict context_id export_timestamp
                    start_time (clock w (ticks w)) is_exception response
                    merged)
           (tick (drew w)))
    | Raise e => (Raise e, drew w)
    end
  else (Ok VNone, drew w).
Proof.
  unfold add_conditional_sampling. rewrite bind_run. unfold random.
  destruct (Qlt_bool _ _); [|reflexivity].
  unfold RestClient._inner_log_message. rewrite bind_run.
  destruct (dict_unpack2 data more) as [merged|e]; [|reflexivity].
  cbn [of_result]. rewrite ret_run, bind_run, get_logging_message_built.
  reflexivity.
Qed.

(** The request-level additional data after [None] was replaced. *)
Lemma rest_log_response_run rm request_dict additional_data context_id
    export_timestamp (w : world) response more (w' : world) :
  rest_log_response rm request_dict additional_data context_id
    export_timestamp w response more w' =
  add_conditional_sampling
    (RestClient._inner_log_message rm (logger_function "log" false)
       request_dict
       (match additional_data with
        | VNone => VDict EMPTY_DICT
        | _ => additional_data
        end)
       context_id export_timestamp (clock w (ticks w)))
    (rest_sampling_ratio rm) (false, more, response) w'.
Proof. reflexivity. Qed.

Lemma rest_log_exception_run rm request_dict additional_data context_id
    export_timestamp (w : world) more (w' : world) :
  rest_log_exception rm request_dict additional_data context_id
    export_timestamp w more w' =
  add_conditional_sampling
    (RestClient._inner_log_message rm (logger_function "log" false)
       request_dict
       (match additional_data with
        | VNone => VDict EMPTY_DICT
        | _ => additional_data
        end)
       context_id export_timestamp (clock w (ticks w)))
    (rest_sampling_ratio rm) (true, more, VNone) w'.
Proof. reflexivity. Qed.

Lemma dict_unpack2_mappings (additional_data : value)
    (a b : gmap string value) :
  additional_data = VDict a \/ (additional_data = VNone /\ a = ∅) ->
  dict_unpack2
    (match additional_data with
     | VNone => VDict EMPTY_DICT
     | _ => additional_data
     end) (VDict b) = Ok (b ∪ a).
Proof. intros [-> | [-> ->]]; reflexivity. Qed.

(** X13.  [log_request] itself logs nothing: it reads the clock and hands
    back the two callbacks.  When [log_response] is then called and the
    gate lets the record through, the logger receives one record with the
    context id and export timestamp exactly as given to [log_request]
    ([None] included: there is no default from the response or the start
    time), the request mapping as [input] without any key removed, the
    time elapsed since [log_request] as [latency], no stream start
    latency, [is_async] false, and the response, when truthy, with its
    analysis. *)
Theorem rest_response_record (rm : rest_monitor)
    (request_dict : gmap string value)
    (additional_data context_id export_timestamp : value) (w : world)
    (response : value) (a b : gmap string value) (w' : world) :
  additional_data = VDict a \/ (additional_data = VNone /\ a = ∅) ->
  Qlt_bool (rand w' (draws w')) (rest_sampling_ratio rm) = true ->
  let out := rest_log_response rm request_dict additional_data context_id
               export_timestamp w response (VDict b) w' in
  snd (RestClient.log_request rm request_dict additional_data context_id
         export_timestamp w) = tick w /\
  exists (em : emission) (message : gmap string value),
    fst out = Ok VNone /\
    exported (snd out) = exported w' ++ [em] /\
    em_context_id em = context_id /\
    em_export_timestamp em = export_timestamp /\
    em_message em = VDict (get_clean_message (rest_wrapping rm) message) /\
    message !! "input" = Some (VDict request_dict) /\
    message !! "latency" =
      Some (VFloat (clock w' (ticks w') - clock w (ticks w))) /\
    message !! "stream_start_latency" = Some VNone /\
    message !! "is_async" = Some (VBool false) /\
    message !! "is_exception" = Some (VBool false) /\
    message !! "response" =
      (if truthy response then Some response else None) /\
    message !! "analysis" =
      (if truthy response
       then Some (get_full_analysis (rest_wrapping rm) request_dict response)
       else None).
Proof.
  intros Hdata Hdraw out. split; [reflexivity|]. subst out.
  rewrite rest_log_response_run, rest_log_message_run, Hdraw.
  rewrite (dict_unpack2_mappings additional_data a b Hdata).
  eexists _, _. split; [reflexivity|]. split; [reflexivity|].
  split; [reflexivity|]. split; [reflexivity|]. split; [reflexivity|].
  split; [apply built_input|]. split; [apply built_latency|].
  split; [apply built_stream_start_latency|].
  split; [apply built_is_async|]. split; [apply built_is_exception|].
  split; [apply built_response | apply built_analysis].
Qed.

Lemma rest_response_record_witness :
  let out := rest_log_response (sample_rest_monitor 1)
               (<[CONTEXT_ID_ARG_NAME := VStr "kept"]> sample_kwargs)
               VNone VNone VNone (sample_world NoLoop) sample_response
               (VDict ∅) (tick (sample_world NoLoop)) in
  exists (em : emission) (message : gmap string value),
    exported (snd out) = [] ++ [em] /\
    em_context_id em = VNone /\
    em_message em = VDict message /\
    message !! "input" =
      Some (VDict (<[CONTEXT_ID_ARG_NAME := VStr "kept"]> sample_kwargs)).
Proof.
  destruct (rest_response_record (sample_rest_monitor 1)
              (<[CONTEXT_ID_ARG_NAME := VStr "kept"]> sample_kwargs)
              VNone VNone VNone (sample_world NoLoop) sample_response
              ∅ ∅ (tick (sample_world NoLoop))
              (or_intror (conj eq_refl eq_refl)) eq_refl)
    as (_ & em & message & _ & Hex & Hc & _ & Hm & Hi & _).
  exists em, message.
  split; [exact Hex|]. split; [exact Hc|]. split; [exact Hm | exact Hi].
Defined.

(** X14.  The additional data of a REST record is the request-level
    mapping given to [log_request] merged with the mapping given to the
    callback: on a key both have, the callback's value stands; a key only
    one has keeps its value; and when both are empty the record has no
    [additional_data] field. *)
Theorem rest_additional_data_merge (rm : rest_monitor)
    (request_dict : gmap string value)
    (additional_data context_id export_timestamp : value) (w : world)
    (response : value) (a b : gmap string value) (w' : world) :
  additional_data = VDict a \/ (additional_data = VNone /\ a = ∅) ->
  Qlt_bool (rand w' (draws w')) (rest_sampling_ratio rm) = true ->
  let out := rest_log_response rm request_dict additional_data context_id
               export_timestamp w response (VDict b) w' in
  exists (em : emission) (message merged : gmap string value),
    exported (snd out) = exported w' ++ [em] /\
    em_message em = VDict (get_clean_message (rest_wrapping rm) message) /\
    (forall key,
       merged !! key =
       match b !! key with
       | Some v => Some v
       | None => a !! key
       end) /\
    message !! "additional_data" =
      (if bool_decide (a = ∅ /\ b = ∅) then None else Some (VDict merged)).
Proof.
  intros Hdata Hdraw out. subst out.
  rewrite rest_log_response_run, rest_log_message_run, Hdraw.
  rewrite (dict_unpack2_mappings additional_data a b Hdata).
  eexists _, _, (b ∪ a). split; [reflexivity|]. split; [reflexivity|].
  split.
  - intros key. rewrite lookup_union. by destruct (b !! key), (a !! key).
  - rewrite built_additional_data. cbn [truthy].
    rewrite (bool_decide_ext (b ∪ a = ∅) (a = ∅ /\ b = ∅)).
    + by destruct (bool_decide (a = ∅ /\ b = ∅)).
    + split.
      * intros Hu. assert (Hb : b = ∅) by exact (map_positive_l b a Hu).
        subst b. by rewrite (left_id_L ∅ (∪)) in Hu.
      * intros [-> ->]. by rewrite (left_id_L ∅ (∪)).
Qed.

Lemma rest_additional_data_merge_witness :
  let a : gmap string value :=
    <["customer_id" := VStr "A1"]> (<["plan" := VStr "free"]> ∅) in
  let b : gmap string value := <["plan" := VStr "pro"]> ∅ in
  let out := rest_log_response (sample_rest_monitor 1) sample_kwargs
               (VDict a) VNone VNone (sample_world NoLoop) sample_response
               (VDict b) (tick (sample_world NoLoop)) in
  exists (em : emission) (message merged : gmap string value),
    exported (snd out) = [] ++ [em] /\
    em_message em = VDict message /\
    merged !! "plan" = Some (VStr "pro") /\
    merged !! "customer_id" = Some (VStr "A1") /\
    message !! "additional_data" = Some (VDict merged).
Proof.
  cbv zeta.
  destruct (rest_additional_data_merge (sample_rest_monitor 1) sample_kwargs
              (VDict (<["customer_id" := VStr "A1"]>
                        (<["plan" := VStr "free"]> ∅)))
              VNone VNone (sample_world NoLoop) sample_response
              (<["customer_id" := VStr "A1"]> (<["plan" := VStr "free"]> ∅))
              (<["plan" := VStr "pro"]> ∅) (tick (sample_world NoLoop))
              (or_introl eq_refl) eq_refl)
    as (em & message & merged & Hex & Hm & Hk & Had).
  exists em, message, merged.
  split; [exact Hex|]. split; [exact Hm|].
  split; [rewrite Hk; vm_compute; reflexivity|].
  split; [rewrite Hk; vm_compute; reflexivity|].
  rewrite Had. rewrite bool_decide_eq_false_2; [reflexivity|].
  intros [_ Hb]. by apply insert_non_empty in Hb.
Defined.

(** X15.  Additional data that is not a mapping: [None] given to
    [log_request] stands for the empty mapping, but anything that is not a
    mapping given to a callback ([None] included), or anything but [None]
    and a mapping given to [log_request], makes the callback raise
    [TypeError] without logging, and only when the sampling gate lets the
    call through; when the gate skips the call, the callback returns
    [None] and nothing shows. *)
Theorem rest_non_mapping_additional_data (rm : rest_monitor)
    (request_dict : gmap string value)
    (additional_data context_id export_timestamp : value) (w : world)
    (response more : value) (w' : world) :
  (forall d, more <> VDict d) \/
  (additional_data <> VNone /\ forall d, additional_data <> VDict d) ->
  let out := rest_log_response rm request_dict additional_data context_id
               export_timestamp w response more w' in
  exported (snd out) = exported w' /\
  ticks (snd out) = ticks w' /\
  if Qlt_bool (rand w' (draws w')) (rest_sampling_ratio rm)
  then exists msg, fst out = Raise (Exn "TypeError" msg)
  else fst out = Ok VNone.
Proof.
  intros Hbad out. subst out.
  rewrite rest_log_response_run, rest_log_message_run.
  destruct (Qlt_bool _ _); [|done].
  assert (Hraise : dict_unpack2
            (match additional_data with
             | VNone => VDict EMPTY_DICT
             | _ => additional_data
             end) more = Raise (Exn "TypeError" "object is not a mapping")).
  { destruct Hbad as [Hm | [Hn Ha]].
    - destruct additional_data; try reflexivity;
        destruct more; try reflexivity;
        by destruct (Hm d0) || by destruct (Hm d).
    - destruct additional_data; try reflexivity; [done | by destruct (Ha d)]. }
  rewrite Hraise. split; [reflexivity|]. split; [reflexivity|]. by eexists.
Qed.

Lemma rest_non_mapping_additional_data_witness :
  let out := rest_log_response (sample_rest_monitor 1) sample_kwargs
               VNone VNone VNone (sample_world NoLoop) sample_response
               VNone (tick (sample_world NoLoop)) in
  exported (snd out) = [] /\
  exists msg, fst out = Raise (Exn "TypeError" msg).
Proof.
  destruct (rest_non_mapping_additional_data (sample_rest_monitor 1)
              sample_kwargs VNone VNone VNone (sample_world NoLoop)
              sample_response VNone (tick (sample_world NoLoop)))
    as (Hex & _ & Hres).
  { left. intros d. discriminate. }
  split; [exact Hex | exact Hres].
Defined.

(** X16.  The two callbacks of one [log_request] log independently of each
    other: calling [log_response] and then [log_exception], the gate
    letting both through, hands the logger two records, a success record
    and then an exception record without response and analysis, whose
    latencies are both counted from the one [log_request]. *)
Theorem rest_callbacks_are_independent (rm : rest_monitor)
    (request_dict : gmap string value)
    (context_id export_timestamp : value) (w : world)
    (response : value) (a b b' : gmap string value) (w' : world) :
  Qlt_bool (rand w' (draws w')) (rest_sampling_ratio rm) = true ->
  Qlt_bool (rand w' (S (draws w'))) (rest_sampling_ratio rm) = true ->
  let out :=
    (rest_log_response rm request_dict (VDict a) context_id
       export_timestamp w response (VDict b) ;;
     rest_log_exception rm request_dict (VDict a) context_id
       export_timestamp w (VDict b')) w' in
  exists (em1 em2 : emission) (m1 m2 : gmap string value),
    fst out = Ok VNone /\
    exported (snd out) = exported w' ++ [em1; em2] /\
    em_message em1 = VDict (get_clean_message (rest_wrapping rm) m1) /\
    em_message em2 = VDict (get_clean_message (rest_wrapping rm) m2) /\
    m1 !! "is_exception" = Some (VBool false) /\
    m2 !! "is_exception" = Some (VBool true) /\
    m2 !! "response" = None /\ m2 !! "analysis" = None /\
    m1 !! "latency" =
      Some (VFloat (clock w' (ticks w') - clock w (ticks w))) /\
    m2 !! "latency" =
      Some (VFloat (clock w' (S (ticks w')) - clock w (ticks w))).
Proof.
  intros Hd1 Hd2 out. subst out.
  rewrite bind_run, rest_log_response_run, rest_log_message_run, Hd1.
  cbn [dict_unpack2].
  rewrite rest_log_exception_run, rest_log_message_run.
  cbn [rand draws clock ticks emitted tick drew]. rewrite Hd2.
  cbn [dict_unpack2 fst snd exported emitted tick drew].
  eexists _, _, _, _. split; [reflexivity|].
  split; [by rewrite <- app_assoc|].
  split; [reflexivity|]. split; [reflexivity|].
  split; [apply built_is_exception|]. split; [apply built_is_exception|].
  split; [by rewrite built_response|]. split; [by rewrite built_analysis|].
  split; apply built_latency.
Qed.

Lemma rest_callbacks_are_independent_witness :
  let out :=
    (rest_log_response (sample_rest_monitor 1) sample_kwargs (VDict ∅)
       VNone VNone (sample_world NoLoop) sample_response (VDict ∅) ;;
     rest_log_exception (sample_rest_monitor 1) sample_kwargs (VDict ∅)
       VNone VNone (sample_world NoLoop) (VDict ∅))
      (tick (sample_world NoLoop)) in
  exists em1 em2 : emission,
    fst out = Ok VNone /\ exported (snd out) = [] ++ [em1; em2].
Proof.
  destruct (rest_callbacks_are_independent (sample_rest_monitor 1)
              sample_kwargs VNone VNone (sample_world NoLoop)
              sample_response ∅ ∅ ∅ (tick (sample_world NoLoop))
              eq_refl eq_refl)
    as (em1 & em2 & _ & _ & Hres & Hex & _).
  exists em1, em2. split; [exact Hres | exact Hex].
Defined.

(** ** The event loop bridge once the patch is installed *)

Lemma run_in_an_event_loop_patched {A : Type} (c : M A) (w : world) :
  nested w = true ->
  let after := match loop w with LoopRunning => LoopRunning
               | _ => LoopIdle end in
  run_in_an_event_loop c w =
  let r := c (with_sched LoopRunning true (sched w ++ [NestedRun]) w) in
  if raises_RuntimeError (fst r)
  then (Raise (Exn "RuntimeError" "cannot reuse already awaited coroutine"),
        with_sched after true
          (sched (snd r) ++ [NestedRun; NestApplied; NestedRun]) (snd r))
  else (fst r, with_sched after true (sched (snd r)) (snd r)).
Proof.
  intros Hn after. unfold run_in_an_event_loop.
  rewrite try_except_run. unfold asyncio_run at 1. unfold_sched.
  rewrite Hn. cbn [fst snd nested loop sched with_sched].
  destruct (c _) as [[a|e] w1]; cbn [fst snd raises_RuntimeError].
  - cbn [fst snd nested loop sched with_sched]. by rewrite app_nil_r.
  - cbn [fst snd nested loop sched with_sched].
    destruct (is_RuntimeError e); [|by rewrite app_nil_r].
    unfold_sched.
    destruct (loop w); cbn [fst snd nested loop sched with_sched];
      rewrite ?is_RuntimeError_RuntimeError;
      cbn [fst snd nested loop sched with_sched];
      rewrite ?is_RuntimeError_RuntimeError;
      cbn [fst snd nested loop sched with_sched];
      rewrite ?app_nil_r, <- ?app_assoc; reflexivity.
Qed.



(** ** Building the monitors *)

(** X18.  [monitor_with_logger] validates before it touches the logger:
    when the sampling ratio or the class is rejected, the error is raised
    and [logger.start_monitoring] was not called; otherwise it is called
    once, with the name of the class, and the monitored class keeps the
    entry points of the wrapped class, the specs and the validated ratio.
    [get_rest_monitor_with_logger] starts the logger first: its logger was
    told to start monitoring the endpoint also when the specs or the
    endpoint are then rejected. *)
Theorem logger_is_started_after_validation_only_for_classes
    (b : builders) (oc : openai_class) (endpoint : string)
    (config : gmap string value) (started : list string) :
  let built := monitor_with_logger b oc config started in
  let rest := get_rest_monitor_with_logger b endpoint config started in
  (match validate_and_get_sampling_ratio b config,
         get_class_wrapping b (class_name oc) config with
   | Raise e, _ => built = (Raise e, started)
   | Ok _, Raise e => built = (Raise e, started)
   | Ok ratio, Ok wrapping =>
       exists cls, built = (Ok cls, started ++ [class_name oc]) /\
         sampling_ratio cls = ratio /\ base_class cls = wrapping /\
         specs cls = config /\
         openai_class_name cls = class_name oc /\
         openai_create cls = class_create oc /\
         openai_acreate cls = class_acreate oc
   end) /\
  snd rest = started ++ [endpoint] /\
  (match validate_and_get_sampling_ratio b config,
         get_endpoint_wrapping b endpoint config with
   | Raise e, _ => fst rest = Raise e
   | Ok _, Raise e => fst rest = Raise e
   | Ok ratio, Ok wrapping =>
       exists rm, fst rest = Ok rm /\
         rest_sampling_ratio rm = ratio /\ rest_wrapping rm = wrapping /\
         openai_endpoint_name rm = endpoint
   end).
Proof.
  intros built rest. subst built rest.
  unfold monitor_with_logger, get_rest_monitor_with_logger.
  rewrite !bind_run. unfold start_monitoring.
  destruct (validate_and_get_sampling_ratio b config) as [ratio|e];
    cbn [build_result]; rewrite ?ret_run, ?raise_run.
  - rewrite !bind_run.
    destruct (get_class_wrapping b (class_name oc) config) as [wr|e];
      destruct (get_endpoint_wrapping b endpoint config) as [wl|e'];
      cbn [build_result]; rewrite ?ret_run, ?raise_run, ?bind_run;
      cbn [fst snd]; repeat split; eauto 10.
  - destruct (get_endpoint_wrapping b endpoint config); done.
Qed.

(** X19.  [monitor_langchain_llm_with_logger] checks the LLM before it
    builds anything: an LLM without a [client] attribute is refused with
    [InvalidLagnchainLLMException] and the logger is not started; an LLM
    with a client whose monitor cannot be built gets that error; otherwise
    the LLM comes back with its other attributes untouched and its client
    replaced by the monitored class built from the old client. *)
Theorem langchain_llm_is_validated_first {R : Type}
    (b : builders) (specs : gmap string value)
    (llm : langchain_llm openai_class R) (started : list string) :
  let out := monitor_langchain_llm_with_logger
               (fun client => monitor_with_logger b client specs)
               llm started in
  match llm_client llm with
  | None =>
      out = (Raise (Exn "InvalidLagnchainLLMException"
                      "LLM has no client attribute - must be an OpenAI LLM"),
             started)
  | Some client =>
      match monitor_with_logger b client specs started with
      | (Raise e, started') => out = (Raise e, started')
      | (Ok cls, started') =>
          exists llm', out = (Ok llm', started') /\
            llm_client llm' = Some cls /\
            llm_attributes llm' = llm_attributes llm
      end
  end.
Proof.
  intros out. subst out. unfold monitor_langchain_llm_with_logger.
  rewrite bind_run. unfold _validate_langchain_llm.
  destruct (llm_client llm) as [client|]; [|reflexivity].
  rewrite ret_run, bind_run.
  destruct (monitor_with_logger b client specs started) as [[cls|e] s'];
    [|reflexivity].
  rewrite ret_run. by eexists.
Qed.
